(** * Drumkits API: the [POST /drumkits] handler

    A shallow embedding of [create_drumkit] (main.py) and of the [Drumkit]
    and [Collaborator] schemas (schemas.py), with the properties of the
    intake validator stated and proved over it.

    Conventions.
    - A Python [float] is an IEEE 754 binary64 value, modelled by
      [spec_float] at precision 53 and maximal exponent 1024.
    - A Python [int] is a [Z]; a [str] is the [string] of its UTF-8
      encoding, one [ascii] per byte, and [len] counts its characters;
      [Optional[T]] is [option T].
    - The handler runs in a monad that threads the document store and
      carries Python exceptions. *)

From Stdlib Require Import ZArith List String Ascii Bool Lia SpecFloat.
Import ListNotations.
Local Open Scope string_scope.
Local Open Scope Z_scope.

(** ** Python floats *)

Module PyFloat.

Definition prec : Z := 53.
Definition emax : Z := 1024.

Definition float := spec_float.

(** A [spec_float] is a binary64 value when its mantissa is canonical. *)
Definition valid (x : float) : bool := valid_binary prec emax x.

(** [float(n)] for an integer [n]; exact when [|n| <= 2^53]. *)
Definition of_int (n : Z) : float := binary_normalize prec emax n 0 false.

Definition sub : float -> float -> float := SFsub prec emax.
Definition mul : float -> float -> float := SFmul prec emax.
Definition div : float -> float -> float := SFdiv prec emax.

Definition ltb : float -> float -> bool := SFltb.
Definition leb : float -> float -> bool := SFleb.
(** [a > b] and [a >= b]; false as soon as one side is NaN. *)
Definition gtb (a b : float) : bool := SFltb b a.
Definition geb (a b : float) : bool := SFleb b a.

(** The literal [0.0]. *)
Definition zero : float := S754_zero false.

(** [a / b] on two ints (true division); the operands used by the
    handler are far below [2^53], where it is the correctly rounded
    quotient of the two conversions. *)
Definition int_truediv (a b : Z) : float := div (of_int a) (of_int b).

(** The builtin [max(a, b)]: the first argument is kept unless the second
    one compares greater. *)
Definition max (a b : float) : float := if gtb b a then b else a.

(** [x] is a positive number or [+inf]. *)
Definition is_pos (x : float) : bool :=
  match x with
  | S754_finite false _ _ | S754_infinity false => true
  | _ => false
  end.

Definition is_nan (x : float) : bool :=
  match x with S754_nan => true | _ => false end.

(** The factor [1 - n/100] of a percent discount. *)
Definition percent_factor (n : Z) : float :=
  sub (of_int 1) (int_truediv n 100).

(** A positive finite value whose exponent is at least [-60]. *)
Definition factor_ok (f : float) : bool :=
  match f with
  | S754_finite false _ e => -60 <=? e
  | _ => false
  end.

End PyFloat.

Definition float : Type := PyFloat.float.

(** ** Strings *)

(** [s.replace(old, new)] for a one-character [old]: every occurrence is
    replaced. *)
Fixpoint str_replace (old : ascii) (new : string) (s : string) : string :=
  match s with
  | EmptyString => EmptyString
  | String c s' =>
      if Ascii.eqb c old then (new ++ str_replace old new s')%string
      else String c (str_replace old new s')
  end.

(** A byte [10xxxxxx]: in UTF-8, a byte that continues a character. *)
Definition is_continuation (c : ascii) : bool :=
  match c with
  | Ascii _ _ _ _ _ _ b6 b7 => b7 && negb b6
  end.

(** The number of characters of a text: each one starts with a byte that
    is not a continuation byte. *)
Fixpoint str_len (s : string) : nat :=
  match s with
  | EmptyString => 0%nat
  | String c s' => if is_continuation c then str_len s' else S (str_len s')
  end.

(** [len(s)] on a [str]. *)
Definition len (s : string) : Z := Z.of_nat (str_len s).

(** ** Exceptions and results *)

Inductive exn : Type :=
| HTTPException (status_code : Z) (detail : string)
| ValueError
| TypeError
| ValidationError.

Inductive result (A : Type) : Type :=
| Ret (a : A)
| Raise (e : exn).
Arguments Ret {A} a.
Arguments Raise {A} e.

Definition rbind {A B} (r : result A) (k : A -> result B) : result B :=
  match r with
  | Ret a => k a
  | Raise e => Raise e
  end.

(** [try: body except ValueError: handler]. *)
Definition except_ValueError {A} (body handler : result A) : result A :=
  match body with
  | Raise ValueError => handler
  | r => r
  end.

(** The five rejections of the handler, under the names of the error
    taxonomy; each is a 400 response with the handler's message. *)
Definition InvalidTags : exn :=
  HTTPException 400 "Tags inválidos (max 3, cada uno max 15 caracteres)".
Definition OfferExceedsPrice : exn :=
  HTTPException 400 "La oferta fija no puede ser mayor o igual al precio original".
Definition OfferPercentTooHigh : exn :=
  HTTPException 400 "El porcentaje de oferta no puede ser mayor a 90%".
Definition ReleaseDateInPast : exn :=
  HTTPException 400 "La hora de lanzamiento ya pasó. Configura otra hora.".
Definition InvalidReleaseDate : exn :=
  HTTPException 400 "Fecha de lanzamiento inválida".

(** ** Datetimes *)

(** A [datetime] value; [tzinfo] is [None] for a naive value and otherwise
    holds the fixed UTC offset in microseconds. *)
Record datetime : Type := mk_datetime {
  year : Z; month : Z; day : Z;
  hour : Z; minute : Z; second : Z; microsecond : Z;
  tzinfo : option Z
}.

(** [dt.replace(second=0, microsecond=0)]. *)
Definition replace_second_microsecond (dt : datetime) : datetime :=
  mk_datetime (year dt) (month dt) (day dt) (hour dt) (minute dt) 0 0 (tzinfo dt).

Definition is_leap (y : Z) : bool :=
  (y mod 4 =? 0) && (negb (y mod 100 =? 0) || (y mod 400 =? 0)).

Definition days_before_year (y : Z) : Z :=
  let y' := y - 1 in y' * 365 + y' / 4 - y' / 100 + y' / 400.

Definition days_before_month (y m : Z) : Z :=
  nth (Z.to_nat m) [0; 0; 31; 59; 90; 120; 151; 181; 212; 243; 273; 304; 334] 0
  + (if (m >? 2) && is_leap y then 1 else 0).

Definition ymd2ord (y m d : Z) : Z :=
  days_before_year y + days_before_month y m + d.

(** Microseconds of the wall-clock fields since the proleptic origin. *)
Definition wall_micros (dt : datetime) : Z :=
  (((ymd2ord (year dt) (month dt) (day dt) * 24 + hour dt) * 60
    + minute dt) * 60 + second dt) * 1000000 + microsecond dt.

Fixpoint lex_lt (a b : list Z) : bool :=
  match a, b with
  | x :: a', y :: b' => (x <? y) || ((x =? y) && lex_lt a' b')
  | [], _ :: _ => true
  | _, [] => false
  end.

Definition wall_fields (dt : datetime) : list Z :=
  [year dt; month dt; day dt; hour dt; minute dt; second dt; microsecond dt].

(** [a < b] on datetimes: values with the same offset (or both naive) are
    compared field by field, aware values with different offsets by their
    instants, and a naive value against an aware one raises [TypeError]. *)
Definition datetime_lt (a b : datetime) : result bool :=
  match tzinfo a, tzinfo b with
  | None, None => Ret (lex_lt (wall_fields a) (wall_fields b))
  | Some oa, Some ob =>
      if oa =? ob then Ret (lex_lt (wall_fields a) (wall_fields b))
      else Ret (wall_micros a - oa <? wall_micros b - ob)
  | _, _ => Raise TypeError
  end.

(** ** Schemas (schemas.py, and the request body of main.py) *)

Definition str_in (s : string) (l : list string) : bool :=
  existsb (String.eqb s) l.

Definition opt_all {A} (f : A -> bool) (o : option A) : bool :=
  match o with
  | Some a => f a
  | None => true
  end.

Module Collaborator.

Record t : Type := mk {
  username : string;
  role : string;
  share_percent : Z
}.

(** The field constraints of [class Collaborator]. *)
Definition valid (c : t) : bool :=
  (len (username c) <=? 32)
  && str_in (role c) ["productor"; "Ingeniero de audio"; "Artista"]
  && (0 <=? share_percent c) && (share_percent c <=? 100).

End Collaborator.

Module DrumkitCreate.

Record t : Type := mk {
  archive_url : option string;
  preview_urls : list string;
  cover_url : option string;
  title : string;
  release_at : string;
  description : option string;
  visibility : string;
  tags : list string;
  sounds_count : Z;
  price_original : float;
  is_free : bool;
  offer_fixed : option float;
  offer_percent : option Z;
  owner_username : string;
  collaborators : list Collaborator.t
}.

(** The field constraints declared by [class DrumkitCreate], which a
    request body meets before the handler receives it. The pattern of
    [visibility] is read as the choice of its three words, and a bound on a
    float as the comparison it names: [ge=1.0] holds when [x >= 1.0] does,
    so NaN meets no bound. A float field holds a binary64 value. *)
Definition valid (p : t) : bool :=
  (len (title p) <=? 60)
  && opt_all (fun d => len d <=? 500) (description p)
  && str_in (visibility p) ["privado"; "publico"; "no_listado"]
  && (0 <=? sounds_count p) && (sounds_count p <=? 999)
  && PyFloat.valid (price_original p)
  && PyFloat.geb (price_original p) (PyFloat.of_int 1)
  && PyFloat.leb (price_original p) (PyFloat.of_int 1000)
  && opt_all (fun f => PyFloat.valid f && PyFloat.geb f PyFloat.zero) (offer_fixed p)
  && opt_all (fun n => (0 <=? n) && (n <=? 90)) (offer_percent p)
  && (len (owner_username p) <=? 32)
  && forallb Collaborator.valid (collaborators p).

End DrumkitCreate.

Module Drumkit.

Record t : Type := mk {
  archive_url : option string;
  preview_urls : list string;
  cover_url : option string;
  title : string;
  release_at : datetime;
  description : option string;
  visibility : string;
  tags : list string;
  sounds_count : Z;
  price_original : float;
  is_free : bool;
  offer_fixed : option float;
  offer_percent : option Z;
  price_final : float;
  owner_username : string;
  collaborators : list Collaborator.t
}.

(** The field constraints declared by [class Drumkit], read as those of
    the request body; [release_at] is an [AwareDatetime]. *)
Definition valid (d : t) : bool :=
  (len (title d) <=? 60)
  && (match tzinfo (release_at d) with Some _ => true | None => false end)
  && opt_all (fun s => len s <=? 500) (description d)
  && str_in (visibility d) ["privado"; "publico"; "no_listado"]
  && (0 <=? sounds_count d) && (sounds_count d <=? 999)
  && PyFloat.geb (price_original d) (PyFloat.of_int 1)
  && PyFloat.leb (price_original d) (PyFloat.of_int 1000)
  && opt_all (fun f => PyFloat.geb f PyFloat.zero) (offer_fixed d)
  && opt_all (fun n => (0 <=? n) && (n <=? 90)) (offer_percent d)
  && PyFloat.geb (price_final d) PyFloat.zero
  && (len (owner_username d) <=? 32)
  && forallb Collaborator.valid (collaborators d).

(** [Drumkit(...)]: the model validates its fields on construction. *)
Definition new (d : t) : result t :=
  if valid d then Ret d else Raise ValidationError.

End Drumkit.

Record DrumkitResponse : Type := mk_response { id : string }.

(** ** The handler's monad: the document store and exceptions *)

(** The store is the log of the document creations: one entry per call
    of [create_document], with the collection and the document passed to
    it. An exception leaves the log as it is. *)
Definition store : Type := list (string * Drumkit.t).

Definition M (A : Type) : Type := store -> result A * store.

Definition ret {A} (a : A) : M A := fun st => (Ret a, st).
Definition lift {A} (r : result A) : M A := fun st => (r, st).

Definition bind {A B} (m : M A) (k : A -> M B) : M B :=
  fun st =>
    match m st with
    | (Ret a, st') => k a st'
    | (Raise e, st') => (Raise e, st')
    end.

Declare Scope py_scope.
Delimit Scope py_scope with py.
Notation "x <- m ;; k" := (bind m (fun x => k))
  (at level 100, m at next level, right associativity) : py_scope.
Notation "m ;; k" := (bind m (fun _ => k))
  (at level 100, right associativity) : py_scope.

(** ** create_drumkit *)

Section Handler.

(** [datetime.fromisoformat] of the standard library; [None] stands for
    its [ValueError]. *)
Variable fromisoformat : string -> option datetime.

(** The wall clock read by [datetime.now]. *)
Variable clock : datetime.

(** The identifier the store assigns to a new document. *)
Variable fresh_id : store -> string -> Drumkit.t -> string.

(** [datetime.now(timezone.utc)]: the current time as an aware value of
    offset zero. *)
Definition datetime_now_utc : datetime :=
  mk_datetime (year clock) (month clock) (day clock)
              (hour clock) (minute clock) (second clock) (microsecond clock)
              (Some 0).

(** Modelled from the spec: [create_document] of database.py, which is
    not among the sources. It stores the record in the named collection
    and returns the identifier generated for it; it is opaque and assumed
    to succeed once called. *)
Definition create_document (collection_name : string) (doc : Drumkit.t) : M string :=
  fun st => (Ret (fresh_id st collection_name doc), (st ++ [(collection_name, doc)])%list).

(** Lines 91-92: at most 3 tags, each of at most 15 characters. *)
Definition check_tags (payload : DrumkitCreate.t) : result unit :=
  if (Z.of_nat (List.length (DrumkitCreate.tags payload)) >? 3)
     || existsb (fun t => len t >? 15) (DrumkitCreate.tags payload)
  then Raise InvalidTags
  else Ret tt.

(** Lines 107-111: the price before the clamp. *)
Definition discounted (price_original : float)
           (offer_fixed : option float) (offer_percent : option Z) : float :=
  match offer_fixed, offer_percent with
  | Some f, _ => PyFloat.sub price_original f
  | None, Some n =>
      PyFloat.mul price_original
                  (PyFloat.sub (PyFloat.of_int 1) (PyFloat.int_truediv n 100))
  | None, None => price_original
  end.

(** Lines 95-112: the final price and the two offer fields to store. *)
Definition pricing (payload : DrumkitCreate.t)
  : result (float * option float * option Z) :=
  if DrumkitCreate.is_free payload then
    Ret (PyFloat.zero, None, None)
  else
    let offer_fixed := DrumkitCreate.offer_fixed payload in
    let offer_percent := DrumkitCreate.offer_percent payload in
    if match offer_fixed with
       | Some f => PyFloat.geb f (DrumkitCreate.price_original payload)
       | None => false
       end
    then Raise OfferExceedsPrice
    else if match offer_percent with
            | Some n => n >? 90
            | None => false
            end
    then Raise OfferPercentTooHigh
    else
      let final_price :=
        discounted (DrumkitCreate.price_original payload) offer_fixed offer_percent in
      Ret (PyFloat.max final_price PyFloat.zero, offer_fixed, offer_percent).

(** Lines 115-122: parse the release time and compare it with the clock
    at minute precision. Only [ValueError] is caught. *)
Definition release_date (payload : DrumkitCreate.t) : result datetime :=
  except_ValueError
    (match fromisoformat (str_replace "Z" "+00:00" (DrumkitCreate.release_at payload)) with
     | None => Raise ValueError
     | Some client_dt =>
         let now := datetime_now_utc in
         rbind (datetime_lt (replace_second_microsecond client_dt)
                            (replace_second_microsecond now))
               (fun past =>
                  if past then Raise ReleaseDateInPast else Ret client_dt)
     end)
    (Raise InvalidReleaseDate).

(** Lines 124-141: the document built from the payload. *)
Definition drumkit_fields (payload : DrumkitCreate.t) (client_dt : datetime)
           (offer_fixed : option float) (offer_percent : option Z)
           (final_price : float) : Drumkit.t :=
  Drumkit.mk
    (DrumkitCreate.archive_url payload)
    (DrumkitCreate.preview_urls payload)
    (DrumkitCreate.cover_url payload)
    (DrumkitCreate.title payload)
    client_dt
    (DrumkitCreate.description payload)
    (DrumkitCreate.visibility payload)
    (DrumkitCreate.tags payload)
    (DrumkitCreate.sounds_count payload)
    (DrumkitCreate.price_original payload)
    (DrumkitCreate.is_free payload)
    offer_fixed
    offer_percent
    final_price
    (DrumkitCreate.owner_username payload)
    (DrumkitCreate.collaborators payload).

Definition create_drumkit (payload : DrumkitCreate.t) : M DrumkitResponse :=
  (lift (check_tags payload) ;;
   priced <- lift (pricing payload) ;;
   let '(final_price, offer_fixed, offer_percent) := priced in
   client_dt <- lift (release_date payload) ;;
   drumkit_doc <- lift (Drumkit.new
                          (drumkit_fields payload client_dt
                                          offer_fixed offer_percent final_price)) ;;
   new_id <- create_document "drumkit" drumkit_doc ;;
   ret (mk_response new_id))%py.

(** The handler's steps up to the construction of the document, as one
    pure function: the validator's contract
    [validate_and_price(submission) -> Result<DrumkitRecord, RejectionReason>]. *)
Definition validate_and_price (payload : DrumkitCreate.t) : result Drumkit.t :=
  rbind (check_tags payload) (fun _ =>
  rbind (pricing payload) (fun priced =>
  let '(final_price, offer_fixed, offer_percent) := priced in
  rbind (release_date payload) (fun client_dt =>
  Drumkit.new (drumkit_fields payload client_dt
                              offer_fixed offer_percent final_price)))).

End Handler.

(** [payload] with another [release_at]. *)
Definition with_release_at (payload : DrumkitCreate.t) (s : string) : DrumkitCreate.t :=
  DrumkitCreate.mk
    (DrumkitCreate.archive_url payload)
    (DrumkitCreate.preview_urls payload)
    (DrumkitCreate.cover_url payload)
    (DrumkitCreate.title payload)
    s
    (DrumkitCreate.description payload)
    (DrumkitCreate.visibility payload)
    (DrumkitCreate.tags payload)
    (DrumkitCreate.sounds_count payload)
    (DrumkitCreate.price_original payload)
    (DrumkitCreate.is_free payload)
    (DrumkitCreate.offer_fixed payload)
    (DrumkitCreate.offer_percent payload)
    (DrumkitCreate.owner_username payload)
    (DrumkitCreate.collaborators payload).

(** ** Sample collaborators and submissions *)

Module Sample.

Definition utc (y mo d h mi s us : Z) : datetime :=
  mk_datetime y mo d h mi s us (Some 0).

(** A parser that knows a few strings, with the values
    [datetime.fromisoformat] gives for them. *)
Definition fromisoformat (s : string) : option datetime :=
  if String.eqb s "2030-01-01T10:00:00+00:00" then Some (utc 2030 1 1 10 0 0 0)
  else if String.eqb s "2030-01-01T10:00:59+00:00" then Some (utc 2030 1 1 10 0 59 0)
  else if String.eqb s "2030-01-01T09:59:59+00:00" then Some (utc 2030 1 1 9 59 59 0)
  else if String.eqb s "2030-01-01T12:00:00+02:00"
       then Some (mk_datetime 2030 1 1 12 0 0 0 (Some 7200000000))
  else if String.eqb s "2030-01-01T10:00:00"
       then Some (mk_datetime 2030 1 1 10 0 0 0 None)
  else None.

(** The clock reads 2030-01-01 10:00:30.5 UTC. *)
Definition clock : datetime := mk_datetime 2030 1 1 10 0 30 500000 None.

(** Identifiers count the documents already stored. *)
Definition fresh_id (st : store) (collection_name : string) (doc : Drumkit.t) : string :=
  (collection_name ++ "-" ++ String (ascii_of_nat (48 + List.length st)) "")%string.

Definition submission (tags : list string) (release_at : string)
           (price_original : Z) (is_free : bool)
           (offer_fixed : option Z) (offer_percent : option Z) : DrumkitCreate.t :=
  DrumkitCreate.mk None [] None "Kit" release_at None "publico" tags 10
                   (PyFloat.of_int price_original) is_free
                   (option_map PyFloat.of_int offer_fixed) offer_percent
                   "owner" [Collaborator.mk "ana" "Artista" 50].

Definition post_drumkits := create_drumkit fromisoformat clock fresh_id.

(** 100.0 with a fixed offer of 20.0. *)
Definition fixed_offer : DrumkitCreate.t :=
  submission ["a"; "b"] "2030-01-01T10:00:00Z" 100 false (Some 20) None.

(** 50.0 at 50 percent off. *)
Definition percent_offer : DrumkitCreate.t :=
  submission ["a"; "b"] "2030-01-01T10:00:00Z" 50 false None (Some 50).

(** 100.0 with both offers. *)
Definition both_offers : DrumkitCreate.t :=
  submission ["a"] "2030-01-01T10:00:00Z" 100 false (Some 20) (Some 50).

Definition no_offer : DrumkitCreate.t :=
  submission [] "2030-01-01T10:00:00Z" 100 false None None.

(** Free, with offers that a non-free submission could not carry. *)
Definition free_with_offers : DrumkitCreate.t :=
  submission ["a"] "2030-01-01T10:00:00Z" 50 true (Some 150) (Some 50).

(** Four tags, an offer above the price and a release time that is no
    date at all. *)
Definition four_tags : DrumkitCreate.t :=
  submission ["a"; "b"; "c"; "d"] "tomorrow" 100 false (Some 150) None.

(** Four tags and a release time one minute behind the clock. *)
Definition four_tags_past : DrumkitCreate.t :=
  submission ["a"; "b"; "c"; "d"] "2030-01-01T09:59:59Z" 100 false None None.

Definition long_tag : DrumkitCreate.t :=
  submission ["a-tag-of-16-char"] "2030-01-01T10:00:00Z" 100 false None None.

Definition offer_above_price : DrumkitCreate.t :=
  submission ["a"] "2030-01-01T10:00:00Z" 100 false (Some 150) None.

Definition percent_90 : DrumkitCreate.t :=
  submission ["a"] "2030-01-01T10:00:00Z" 100 false None (Some 90).

Definition past_minute : DrumkitCreate.t :=
  submission ["a"] "2030-01-01T09:59:59Z" 100 false None None.

(** Released in the minute the clock is in, half a minute earlier. *)
Definition same_minute : DrumkitCreate.t :=
  submission ["a"] "2030-01-01T10:00:00Z" 100 false None None.

Definition not_a_date : DrumkitCreate.t :=
  submission ["a"] "tomorrow" 100 false None None.

Definition naive_date : DrumkitCreate.t :=
  submission ["a"] "2030-01-01T10:00:00" 100 false None None.

End Sample.

(** ** The health check (main.py, [test_database]) *)

Module Health.

(** What [db.list_collection_names()] does: it returns the names, or raises
    an exception [e] whose text [str(e)] is [message]. *)
Inductive listing : Type :=
| Listed (names : list string)
| Failed (message : string).

(** The response dict, with its six keys. *)
Record response : Type := mk {
  backend : string;
  database : string;
  database_url : option string;
  database_name : option string;
  connection_status : string;
  collections : list string
}.

(** The truth value of [os.getenv(...)]: unset and empty are false. *)
Definition truthy (v : option string) : bool :=
  match v with
  | Some (String _ _) => true
  | _ => false
  end.

(** [s[:n]] on a [str]: its first [n] characters, each with all its bytes. *)
Fixpoint str_prefix (n : nat) (s : string) : string :=
  match s with
  | EmptyString => EmptyString
  | String c s' =>
      if is_continuation c then String c (str_prefix n s')
      else match n with
           | O => EmptyString
           | S n' => String c (str_prefix n' s')
           end
  end.

(** Lines 26-33: the response before the database is looked at. *)
Definition initial : response :=
  mk "✅ Running" "❌ Not Available" None None "Not Connected" [].

(** [a or b] on an optional string: [a] unless it is unset or empty. *)
Definition or_else (a : option string) (b : string) : string :=
  match a with
  | Some (String c s) => String c s
  | _ => b
  end.

Definition set_database (v : string) (r : response) : response :=
  mk (backend r) v (database_url r) (database_name r) (connection_status r)
     (collections r).
Definition set_database_url (v : option string) (r : response) : response :=
  mk (backend r) (database r) v (database_name r) (connection_status r)
     (collections r).
Definition set_database_name (v : option string) (r : response) : response :=
  mk (backend r) (database r) (database_url r) v (connection_status r)
     (collections r).
Definition set_connection_status (v : string) (r : response) : response :=
  mk (backend r) (database r) (database_url r) (database_name r) v
     (collections r).
Definition set_collections (v : list string) (r : response) : response :=
  mk (backend r) (database r) (database_url r) (database_name r)
     (connection_status r) v.

(** Lines 35-52. [db] is the module-wide handle, [None] when it was not
    initialised; [getenv] reads the environment. The reads of the
    environment raise nothing, so the outer handler has nothing to catch. *)
Definition test_database (db : option listing) (getenv : string -> option string)
  : response :=
  let response := initial in
  match db with
  | Some handle =>
      let response := set_database "✅ Available" response in
      let response :=
        set_database_url
          (Some (if truthy (getenv "DATABASE_URL") then "✅ Set" else "❌ Not Set"))
          response in
      let response :=
        set_database_name (Some (or_else (getenv "DATABASE_NAME") "❌ Not Set"))
                          response in
      let response := set_connection_status "Connected" response in
      match handle with
      | Listed collections =>
          let response := set_collections (firstn 10 collections) response in
          set_database "✅ Connected & Working" response
      | Failed message =>
          set_database ("⚠️  Connected but Error: " ++ str_prefix 50 message)%string
                       response
      end
  | None => set_database "⚠️  Available but not initialized" response
  end.

End Health.

(** ** Predicates used to state the handler's properties *)

(** At most 3 tags, each of at most 15 characters. *)
Definition tags_within_bounds (tags : list string) : Prop :=
  (List.length tags <= 3)%nat
  /\ forall t, In t tags -> (str_len t <= 15)%nat.

(** The value of a mantissa [m] at exponent [e], scaled by [2^1074] so
    that it is an integer for every exponent of the format. *)
Definition scaled (m e : Z) : Z := m * 2 ^ (e + 1074).

(** [m] and [e] are the mantissa and exponent of a binary64 number in its
    canonical form: [m] has at most 53 bits, and exactly 53 above the
    smallest exponent. *)
Definition canon (m e : Z) : Prop :=
  -1074 <= e /\ 0 < m < 9007199254740992 /\ (-1074 < e -> 4503599627370496 <= m).

(** A positive binary64 number of at most [1.0], with 53 bits of mantissa
    and an exponent of at least [-60]. *)
Definition factor_at_most_one (f : PyFloat.float) : bool :=
  match f with
  | S754_finite false m e =>
      (-60 <=? e) && (e <=? 0) && (4503599627370496 <=? Zpos m)
      && (Zpos m <=? 2 ^ (- e))
  | _ => false
  end.

(** The two offer checks let the body through: it is free, or its fixed
    offer, if any, is not at or above the price and its percent offer, if
    any, is at most 90. *)
Definition offers_pass (p : DrumkitCreate.t) : Prop :=
  DrumkitCreate.is_free p = true
  \/ ((forall f, DrumkitCreate.offer_fixed p = Some f ->
                 PyFloat.geb f (DrumkitCreate.price_original p) = false)
      /\ (forall n, DrumkitCreate.offer_percent p = Some n -> n <= 90)).

(** [c] occurs in [s]. *)
Fixpoint has_char (c : ascii) (s : string) : bool :=
  match s with
  | EmptyString => false
  | String d s' => Ascii.eqb d c || has_char c s'
  end.

(** The fields of a request body that the handler's checks read. *)
Definition same_checked_fields (p q : DrumkitCreate.t) : Prop :=
  DrumkitCreate.tags p = DrumkitCreate.tags q
  /\ DrumkitCreate.is_free p = DrumkitCreate.is_free q
  /\ DrumkitCreate.price_original p = DrumkitCreate.price_original q
  /\ DrumkitCreate.offer_fixed p = DrumkitCreate.offer_fixed q
  /\ DrumkitCreate.offer_percent p = DrumkitCreate.offer_percent q
  /\ DrumkitCreate.release_at p = DrumkitCreate.release_at q.

(** What holds of every entry the handler adds to the store. *)
Definition stored_ok (entry : string * Drumkit.t) : Prop :=
  fst entry = "drumkit"
  /\ Drumkit.valid (snd entry) = true
  /\ tags_within_bounds (Drumkit.tags (snd entry))
  /\ (Drumkit.is_free (snd entry) = true ->
      Drumkit.price_final (snd entry) = PyFloat.zero
      /\ Drumkit.offer_fixed (snd entry) = None
      /\ Drumkit.offer_percent (snd entry) = None)
  /\ (Drumkit.is_free (snd entry) = false ->
      forall f, Drumkit.offer_fixed (snd entry) = Some f ->
                PyFloat.geb f (Drumkit.price_original (snd entry)) = false).

(** The seconds and microseconds of a datetime are those of a clock
    face. *)
Definition seconds_in_range (dt : datetime) : Prop :=
  0 <= second dt < 60 /\ 0 <= microsecond dt < 1000000.

(** More sample values. *)
Module Sample2.

(** A release time written with the offset [+00:00:30]. *)
Definition half_minute_offset : datetime :=
  mk_datetime 2030 1 1 10 0 45 0 (Some 30000000).

Definition fromisoformat (s : string) : option datetime :=
  if String.eqb s "2030-01-01T10:00:45+00:00:30" then Some half_minute_offset
  else if String.eqb s "2030-01-01T10:00:59.250000+00:00"
       then Some (mk_datetime 2030 1 1 10 0 59 250000 (Some 0))
  else None.

Definition with_seconds : DrumkitCreate.t :=
  Sample.submission ["a"] "2030-01-01T10:00:59.250000Z" 100 false None None.

Definition odd_offset : DrumkitCreate.t :=
  Sample.submission ["a"] "2030-01-01T10:00:45+00:00:30" 100 false None None.

(** Three tags of 15 characters. *)
Definition full_tags : DrumkitCreate.t :=
  Sample.submission ["fifteen-chars-1"; "fifteen-chars-2"; "fifteen-chars-3"]
                    "2030-01-01T10:00:00Z" 100 false None None.

(** A title of 60 characters and a tag of 15, both with accented letters:
    63 and 16 bytes. *)
Definition accented : DrumkitCreate.t :=
  DrumkitCreate.mk None [] None
    "Colección de percusión latina y ritmos electrónicos, vol. 2!"
    "2030-01-01T10:00:00Z" None "publico" ["percusión-latin"] 10
    (PyFloat.of_int 100) false (Some (PyFloat.of_int 20)) None "owner" [].

(** The same with a tag of 16 characters. *)
Definition accented_long_tag : DrumkitCreate.t :=
  DrumkitCreate.mk None [] None
    "Colección de percusión latina y ritmos electrónicos, vol. 2!"
    "2030-01-01T10:00:00Z" None "publico" ["percusión-latina"] 10
    (PyFloat.of_int 100) false (Some (PyFloat.of_int 20)) None "owner" [].

Definition zero_percent : DrumkitCreate.t :=
  Sample.submission ["a"] "2030-01-01T10:00:00Z" 100 false None (Some 0).

Definition zero_fixed : DrumkitCreate.t :=
  Sample.submission ["a"] "2030-01-01T10:00:00Z" 100 false (Some 0) (Some 50).

(** The clock reads 2030-01-01 10:00:10 UTC. *)
Definition clock : datetime := mk_datetime 2030 1 1 10 0 10 0 None.

Definition getenv (k : string) : option string :=
  if String.eqb k "DATABASE_URL" then Some "mongodb://db:27017"
  else if String.eqb k "DATABASE_NAME" then Some ""
  else None.

Definition twelve_names : list string :=
  ["c01"; "c02"; "c03"; "c04"; "c05"; "c06"; "c07"; "c08"; "c09"; "c10"; "c11"; "c12"].

End Sample2.

(** * Facts about binary64 arithmetic *)

Module FloatFacts.
Import PyFloat.

Lemma digits2_pos_bounds (m : positive) :
  2 ^ (Zpos (digits2_pos m) - 1) <= Zpos m < 2 ^ Zpos (digits2_pos m).
Proof.
  induction m as [m IH | m IH |]; cbn [digits2_pos].
  - rewrite Pos2Z.inj_succ, Z.pow_succ_r by lia.
    replace (Z.succ (Zpos (digits2_pos m)) - 1) with (Z.succ (Zpos (digits2_pos m) - 1)) by lia.
    rewrite Z.pow_succ_r by lia. lia.
  - rewrite Pos2Z.inj_succ, Z.pow_succ_r by lia.
    replace (Z.succ (Zpos (digits2_pos m)) - 1) with (Z.succ (Zpos (digits2_pos m) - 1)) by lia.
    rewrite Z.pow_succ_r by lia. lia.
  - cbn. lia.
Qed.

Lemma shr_1_m (r : shr_record) :
  0 <= shr_m r -> shr_m (shr_1 r) = shr_m r / 2.
Proof.
  destruct r as [m r s]; cbn [shr_m]; intros Hm.
  rewrite <- Z.div2_div.
  destruct m as [|[p|p|]|p]; cbn; try reflexivity; lia.
Qed.

Lemma iter_pos_shr_1_m (p : positive) :
  forall r, 0 <= shr_m r ->
    0 <= shr_m (iter_pos shr_1 p r)
    /\ shr_m (iter_pos shr_1 p r) = shr_m r / 2 ^ Zpos p.
Proof.
  induction p as [p IH | p IH |]; intros r Hr; cbn [iter_pos].
  - assert (H1 : 0 <= shr_m (shr_1 r)).
    { rewrite shr_1_m by assumption. apply Z.div_pos; lia. }
    destruct (IH _ H1) as [H2 E2]. destruct (IH _ H2) as [H3 E3].
    split; [assumption|].
    rewrite E3, E2, shr_1_m by assumption.
    rewrite !Z.div_div by lia.
    f_equal. replace (Zpos p~1) with (1 + Zpos p + Zpos p) by lia.
    rewrite !Z.pow_add_r by lia. change (2 ^ 1) with 2. ring.
  - destruct (IH _ Hr) as [H2 E2]. destruct (IH _ H2) as [H3 E3].
    split; [assumption|].
    rewrite E3, E2, Z.div_div by lia.
    f_equal. replace (Zpos p~0) with (Zpos p + Zpos p) by lia.
    rewrite Z.pow_add_r by lia. reflexivity.
  - split.
    + rewrite shr_1_m by assumption. apply Z.div_pos; lia.
    + rewrite shr_1_m by assumption. reflexivity.
Qed.

Lemma shr_record_of_loc_m (m : Z) (l : location) :
  shr_m (shr_record_of_loc m l) = m.
Proof. destruct l as [|[]]; reflexivity. Qed.

(** Shifting a positive mantissa to its canonical exponent leaves it
    positive, as long as the exponent is not below [emin]. *)
Lemma shr_fexp_pos (m : positive) (e : Z) (l : location) :
  emin prec emax <= e ->
  0 < shr_m (fst (shr_fexp prec emax (Zpos m) e l))
  /\ emin prec emax <= snd (shr_fexp prec emax (Zpos m) e l).
Proof.
  intros He. unfold shr_fexp, shr. cbn [Zdigits2].
  pose proof (digits2_pos_bounds m) as Hd.
  set (d := Zpos (digits2_pos m)) in *.
  destruct (fexp prec emax (d + e) - e) as [|p|p] eqn:En; cbn [fst snd];
    rewrite ?shr_record_of_loc_m; try (split; [lia | assumption]).
  assert (Hp : Zpos p = d - prec).
  { unfold fexp, emin, prec, emax in *. lia. }
  destruct (iter_pos_shr_1_m p (shr_record_of_loc (Zpos m) l)) as [_ E].
  { rewrite shr_record_of_loc_m. lia. }
  rewrite E, shr_record_of_loc_m. split; [|lia].
  apply Z.div_str_pos. split; [lia|].
  apply Z.le_trans with (2 ^ (d - 1)); [|lia].
  apply Z.pow_le_mono_r; unfold prec in *; lia.
Qed.


Lemma round_nearest_even_pos (m : Z) (l : location) :
  0 < m -> 0 < round_nearest_even m l.
Proof.
  intros Hm. destruct l as [|[]]; cbn [round_nearest_even]; try lia.
  destruct (Z.even m); lia.
Qed.

Lemma is_pos_gtb (x : float) : is_pos x = true -> gtb x zero = true.
Proof. destruct x as [s|[]| |[] m e]; cbn; congruence. Qed.

Lemma is_pos_geb (x : float) : is_pos x = true -> geb x zero = true.
Proof. destruct x as [s|[]| |[] m e]; cbn; congruence. Qed.

(** Rounding a positive mantissa at an exponent that is not below [emin]
    never gives zero: no underflow to [0.0]. *)
Lemma binary_round_aux_pos (m : positive) (e : Z) (l : location) :
  emin prec emax <= e ->
  is_pos (binary_round_aux prec emax false (Zpos m) e l) = true.
Proof.
  intros He. unfold binary_round_aux.
  destruct (shr_fexp_pos m e l He) as [H1 H2].
  destruct (shr_fexp prec emax (Zpos m) e l) as [mrs' e']; cbn [fst snd] in *.
  pose proof (round_nearest_even_pos (shr_m mrs') (loc_of_shr_record mrs') H1) as H3.
  destruct (round_nearest_even (shr_m mrs') (loc_of_shr_record mrs')) as [|q|q]; try lia.
  destruct (shr_fexp_pos q e' loc_Exact H2) as [H4 _].
  destruct (shr_fexp prec emax (Zpos q) e' loc_Exact) as [mrs'' e'']; cbn [fst snd] in *.
  destruct (shr_m mrs'') as [|r|r]; try lia.
  destruct (e'' <=? emax - prec); reflexivity.
Qed.

Lemma binary_round_pos (m : positive) (e : Z) :
  emin prec emax <= e ->
  is_pos (binary_round prec emax false m e) = true.
Proof.
  intros He. unfold binary_round, shl_align.
  destruct (fexp prec emax (Zpos (digits2_pos m) + e) - e) as [|d|d] eqn:Ed;
    try (apply binary_round_aux_pos; assumption).
  apply binary_round_aux_pos. unfold fexp, emin, prec, emax in *. lia.
Qed.

Lemma binary_normalize_pos (m e : Z) (sz : bool) :
  0 < m -> emin prec emax <= e ->
  is_pos (binary_normalize prec emax m e sz) = true.
Proof.
  intros Hm He. destruct m as [|p|p]; try lia.
  apply binary_round_pos; assumption.
Qed.

Lemma pos_iter_xO (m d : positive) :
  Zpos (Pos.iter xO m d) = Zpos m * 2 ^ Zpos d.
Proof.
  induction d as [|d IH] using Pos.peano_ind.
  - cbn. lia.
  - rewrite Pos.iter_succ, Pos2Z.inj_xO, IH, Pos2Z.inj_succ, Z.pow_succ_r by lia.
    ring.
Qed.

Lemma shl_align_value (m : positive) (e e' : Z) :
  e' <= e -> Zpos (fst (shl_align m e e')) = Zpos m * 2 ^ (e - e').
Proof.
  intros H. unfold shl_align.
  destruct (e' - e) as [|d|d] eqn:Ed; cbn [fst]; try lia.
  - replace (e - e') with 0 by lia. lia.
  - rewrite pos_iter_xO. f_equal. f_equal. lia.
Qed.

Lemma canonical_inv (m : positive) (e : Z) :
  canonical_mantissa prec emax m e = true ->
  emin prec emax <= e
  /\ Zpos m < 2 ^ prec
  /\ (emin prec emax < e -> 2 ^ (prec - 1) <= Zpos m).
Proof.
  unfold canonical_mantissa. intros H. apply Z.eqb_eq in H.
  pose proof (digits2_pos_bounds m) as Hd.
  set (d := Zpos (digits2_pos m)) in *.
  unfold fexp, emin, prec, emax in *.
  split; [lia|]. split.
  - apply Z.lt_le_trans with (2 ^ d); [lia|].
    apply Z.pow_le_mono_r; lia.
  - intros He. replace d with 53 in Hd by lia. exact (proj1 Hd).
Qed.

Lemma bounded_inv (m : positive) (e : Z) :
  bounded prec emax m e = true -> canonical_mantissa prec emax m e = true.
Proof. unfold bounded. intros H. apply andb_prop in H. tauto. Qed.

(** Two canonical mantissas brought to the smaller of their exponents:
    the one with the larger exponent, or with the larger mantissa at the
    same exponent, stays strictly larger. *)
Lemma aligned_lt (a b : positive) (ea eb : Z) :
  canonical_mantissa prec emax a ea = true ->
  canonical_mantissa prec emax b eb = true ->
  eb < ea \/ (eb = ea /\ (b < a)%positive) ->
  Zpos (fst (shl_align b eb (Z.min ea eb)))
  < Zpos (fst (shl_align a ea (Z.min ea eb))).
Proof.
  intros Ca Cb H.
  destruct (canonical_inv a ea Ca) as (Ha1 & Ha2 & Ha3).
  destruct (canonical_inv b eb Cb) as (Hb1 & Hb2 & Hb3).
  rewrite !shl_align_value by lia.
  destruct H as [H | [H1 H2]].
  - replace (Z.min ea eb) with eb by lia.
    replace (eb - eb) with 0 by lia. rewrite Z.pow_0_r, Z.mul_1_r.
    assert (H2 : 2 ^ 1 <= 2 ^ (ea - eb)) by (apply Z.pow_le_mono_r; lia).
    change (2 ^ 1) with 2 in H2.
    assert (H3 : 2 ^ (prec - 1) <= Zpos a) by (apply Ha3; lia).
    assert (H4 : 2 ^ prec = 2 * 2 ^ (prec - 1)) by reflexivity.
    nia.
  - subst eb. replace (Z.min ea ea) with ea by lia.
    replace (ea - ea) with 0 by lia. rewrite Z.pow_0_r. lia.
Qed.


Lemma sub_finite_pos (sx sy : bool) (mx my : positive) (ex ey : Z) :
  bounded prec emax mx ex = true ->
  bounded prec emax my ey = true ->
  ltb (S754_finite sy my ey) (S754_finite sx mx ex) = true ->
  is_pos (sub (S754_finite sx mx ex) (S754_finite sy my ey)) = true.
Proof.
  intros Bx By Hlt.
  apply bounded_inv in Bx, By.
  destruct (canonical_inv mx ex Bx) as (Hx & _).
  destruct (canonical_inv my ey By) as (Hy & _).
  unfold sub, SFsub. apply binary_normalize_pos; [|lia].
  unfold ltb, SFltb, SFcompare in Hlt.
  destruct sx, sy; cbn [cond_Zopp]; try discriminate Hlt.
  - (* both negative: |x| < |y| *)
    assert (H : ex < ey \/ (ex = ey /\ (mx < my)%positive)).
    { change (Pos.compare_cont Eq my mx) with (my ?= mx)%positive in Hlt.
      revert Hlt. destruct (Z.compare_spec ey ex) as [E|E|E]; intros Hlt;
        try discriminate Hlt; [right|left; lia].
      split; [lia|]. apply Pos.gt_lt. unfold Pos.gt.
      revert Hlt. destruct (my ?= mx)%positive; cbn; congruence. }
    pose proof (aligned_lt my mx ey ex By Bx H) as L.
    rewrite (Z.min_comm ey ex) in L. lia.
  - (* x positive, y negative *)
    lia.
  - (* both positive: y < x *)
    assert (H : ey < ex \/ (ey = ex /\ (my < mx)%positive)).
    { change (Pos.compare_cont Eq my mx) with (my ?= mx)%positive in Hlt.
      revert Hlt. destruct (Z.compare_spec ey ex) as [E|E|E]; intros Hlt;
        try discriminate Hlt; [right|left; lia].
      split; [lia|]. unfold Pos.lt.
      revert Hlt. destruct (my ?= mx)%positive; cbn; congruence. }
    pose proof (aligned_lt mx my ex ey Bx By H) as L. lia.
Qed.

(** Gradual underflow: the difference of two binary64 values is positive
    whenever the subtrahend is the smaller one. *)
Lemma sub_pos (x y : float) :
  valid x = true -> valid y = true -> ltb y x = true ->
  is_pos (sub x y) = true.
Proof.
  intros Vx Vy Hlt.
  destruct x as [sx|sx| |sx mx ex]; destruct y as [sy|sy| |sy my ey];
    try (apply sub_finite_pos; assumption);
    try discriminate Hlt;
    try (destruct sx; try discriminate Hlt; destruct sy; try discriminate Hlt; reflexivity).
Qed.

Lemma mul_finite_pos (mx my : positive) (ex ey : Z) :
  emin prec emax <= ex + ey ->
  is_pos (mul (S754_finite false mx ex) (S754_finite false my ey)) = true.
Proof.
  intros H. unfold mul, SFmul. cbn [xorb]. apply binary_round_aux_pos. exact H.
Qed.

Lemma of_int_1 : of_int 1 = S754_finite false 4503599627370496 (-52).
Proof. vm_compute. reflexivity. Qed.

Lemma of_int_1000 : of_int 1000 = S754_finite false 8796093022208000 (-43).
Proof. vm_compute. reflexivity. Qed.

(** A value in the range [1.0 .. 1000.0] is a positive finite number,
    with an exponent of at least [-52]. *)
Lemma price_range_inv (x : float) :
  geb x (of_int 1) = true -> leb x (of_int 1000) = true ->
  exists m e, x = S754_finite false m e /\ -52 <= e.
Proof.
  rewrite of_int_1, of_int_1000. unfold geb, leb, SFleb, SFcompare.
  intros H1 H2.
  destruct x as [sx|sx| |sx mx ex]; try discriminate H1.
  - destruct sx; discriminate.
  - destruct sx; try discriminate H1.
    exists mx, ex. split; [reflexivity|].
    revert H1. destruct (Z.compare_spec (-52) ex); intros H1;
      [lia | lia | discriminate H1].
Qed.

Lemma percent_factor_table :
  forallb (fun k => factor_ok (percent_factor (Z.of_nat k))) (seq 0 91) = true.
Proof. vm_compute. reflexivity. Qed.

Lemma percent_factor_shape (n : Z) :
  0 <= n <= 90 ->
  exists m e, percent_factor n = S754_finite false m e /\ -60 <= e.
Proof.
  intros Hn.
  pose proof percent_factor_table as T.
  rewrite forallb_forall in T.
  specialize (T (Z.to_nat n)).
  rewrite Z2Nat.id in T by lia.
  assert (I : In (Z.to_nat n) (seq 0 91)) by (apply in_seq; lia).
  specialize (T I). unfold factor_ok in T.
  destruct (percent_factor n) as [s|s| |[] m e]; try discriminate T.
  exists m, e. split; [reflexivity|lia].
Qed.


Lemma SFcompare_swap (x y : float) :
  SFcompare y x = option_map CompOpp (SFcompare x y).
Proof.
  destruct x as [sx|sx| |sx mx ex]; destruct y as [sy|sy| |sy my ey];
    try (destruct sx; reflexivity);
    try (destruct sy; reflexivity);
    try (destruct sx, sy; reflexivity);
    try reflexivity.
  unfold SFcompare, option_map.
  rewrite (Z.compare_antisym ex ey).
  assert (A : Pos.compare_cont Eq my mx = CompOpp (Pos.compare_cont Eq mx my))
    by (rewrite Pos.compare_cont_antisym; reflexivity).
  rewrite A.
  destruct sx, sy; try reflexivity;
    destruct (ex ?= ey); cbn [CompOpp]; try reflexivity;
    rewrite ?CompOpp_involutive; reflexivity.
Qed.

Lemma ltb_geb (f x : float) : ltb f x = true -> geb f x = false.
Proof.
  unfold ltb, geb, SFltb, SFleb. rewrite (SFcompare_swap f x).
  destruct (SFcompare f x) as [[]|]; cbn; congruence.
Qed.

Lemma SFcompare_total (x y : float) :
  is_nan x = false -> is_nan y = false -> SFcompare x y <> None.
Proof.
  destruct x as [sx|sx| |sx mx ex]; destruct y as [sy|sy| |sy my ey];
    cbn; intros; congruence.
Qed.

Lemma not_geb_ltb (f x : float) :
  is_nan f = false -> is_nan x = false -> geb f x = false -> ltb f x = true.
Proof.
  intros Nf Nx. pose proof (SFcompare_total f x Nf Nx) as T.
  unfold ltb, geb, SFltb, SFleb. rewrite (SFcompare_swap f x).
  destruct (SFcompare f x) as [[]|]; cbn; congruence.
Qed.

Lemma geb_not_nan (f x : float) : geb f x = true -> is_nan f = false.
Proof.
  unfold geb, SFleb. destruct x as [sx|sx| |sx mx ex]; destruct f as [sy|sy| |sy my ey];
    cbn; congruence.
Qed.

Lemma is_pos_max (x : float) : is_pos x = true -> PyFloat.max x zero = x.
Proof. destruct x as [s|[]| |[] m e]; cbn; congruence. Qed.

End FloatFacts.

(** * Facts about the handler *)

Ltac split_andb :=
  repeat match goal with
         | H : _ && _ = true |- _ => apply andb_prop in H; destruct H
         end.

Lemma rejections_distinct :
  InvalidTags <> OfferExceedsPrice /\ InvalidTags <> OfferPercentTooHigh
  /\ InvalidTags <> ReleaseDateInPast /\ InvalidTags <> InvalidReleaseDate
  /\ OfferExceedsPrice <> OfferPercentTooHigh
  /\ ReleaseDateInPast <> OfferPercentTooHigh
  /\ InvalidReleaseDate <> OfferPercentTooHigh.
Proof. repeat split; discriminate. Qed.

Lemma string_app_assoc (a b c : string) :
  (a ++ (b ++ c) = (a ++ b) ++ c)%string.
Proof.
  induction a as [|x a IH]; cbn [String.append]; [reflexivity|].
  rewrite IH. reflexivity.
Qed.

Lemma str_replace_app (old : ascii) (new s t : string) :
  str_replace old new (s ++ t) = (str_replace old new s ++ str_replace old new t)%string.
Proof.
  induction s as [|c s IH]; cbn [str_replace String.append]; [reflexivity|].
  rewrite IH. destruct (Ascii.eqb c old); [|reflexivity].
  apply string_app_assoc.
Qed.

Lemma check_tags_ok (p : DrumkitCreate.t) :
  (List.length (DrumkitCreate.tags p) <= 3)%nat ->
  (forall t, In t (DrumkitCreate.tags p) -> (str_len t <= 15)%nat) ->
  check_tags p = Ret tt.
Proof.
  intros H1 H2. unfold check_tags.
  replace (Z.of_nat (List.length (DrumkitCreate.tags p)) >? 3) with false by lia.
  cbn [orb].
  destruct (existsb (fun t => len t >? 15) (DrumkitCreate.tags p)) eqn:E; [|reflexivity].
  apply existsb_exists in E. destruct E as (t & I & L).
  specialize (H2 t I). unfold len in L. lia.
Qed.

Lemma check_tags_bad (p : DrumkitCreate.t) :
  (3 < List.length (DrumkitCreate.tags p))%nat
  \/ (exists t, In t (DrumkitCreate.tags p) /\ (15 < str_len t)%nat) ->
  check_tags p = Raise InvalidTags.
Proof.
  intros H. unfold check_tags.
  replace ((Z.of_nat (List.length (DrumkitCreate.tags p)) >? 3)
           || existsb (fun t => len t >? 15) (DrumkitCreate.tags p)) with true;
    [reflexivity|].
  symmetry. apply orb_true_iff. destruct H as [H | (t & I & L)].
  - left. lia.
  - right. apply existsb_exists. exists t. split; [assumption|]. unfold len. lia.
Qed.

(** What [pricing] returns, case by case. *)
Lemma pricing_inv (p : DrumkitCreate.t) (fp : float) (o_f : option float) (o_p : option Z) :
  pricing p = Ret (fp, o_f, o_p) ->
  (DrumkitCreate.is_free p = true /\ fp = PyFloat.zero /\ o_f = None /\ o_p = None)
  \/ (DrumkitCreate.is_free p = false
      /\ o_f = DrumkitCreate.offer_fixed p /\ o_p = DrumkitCreate.offer_percent p
      /\ fp = PyFloat.max (discounted (DrumkitCreate.price_original p) o_f o_p) PyFloat.zero
      /\ (forall f, o_f = Some f -> PyFloat.geb f (DrumkitCreate.price_original p) = false)
      /\ (forall n, o_p = Some n -> n <= 90)).
Proof.
  unfold pricing. destruct (DrumkitCreate.is_free p).
  - intros H. injection H as <- <- <-. left. repeat split.
  - destruct (DrumkitCreate.offer_fixed p) as [f|] eqn:Ef.
    + destruct (PyFloat.geb f (DrumkitCreate.price_original p)) eqn:G; [discriminate|].
      destruct (DrumkitCreate.offer_percent p) as [n|] eqn:En.
      * destruct (n >? 90) eqn:L; [discriminate|].
        intros H. injection H as <- <- <-. right. repeat split; try congruence.
        intros n' E. injection E as <-. lia.
      * intros H. injection H as <- <- <-. right. repeat split; congruence.
    + destruct (DrumkitCreate.offer_percent p) as [n|] eqn:En.
      * destruct (n >? 90) eqn:L; [discriminate|].
        intros H. injection H as <- <- <-. right. repeat split; try congruence.
        intros n' E. injection E as <-. lia.
      * intros H. injection H as <- <- <-. right. repeat split; congruence.
Qed.

(** The price before the clamp is positive for a well-formed, non-free
    payload that passes the two offer checks. *)
Lemma discounted_pos (p : DrumkitCreate.t) (fp : float) (o_f : option float) (o_p : option Z) :
  DrumkitCreate.valid p = true ->
  DrumkitCreate.is_free p = false ->
  pricing p = Ret (fp, o_f, o_p) ->
  PyFloat.is_pos (discounted (DrumkitCreate.price_original p) o_f o_p) = true.
Proof.
  intros V F P. apply pricing_inv in P.
  destruct P as [(F' & _) | (_ & Ef & Ep & _ & Hf & Hp)]; [congruence|].
  unfold DrumkitCreate.valid in V. split_andb.
  destruct (FloatFacts.price_range_inv (DrumkitCreate.price_original p))
    as (m & e & Ex & He); try assumption.
  unfold discounted. destruct o_f as [f|].
  - rewrite <- Ef in *. cbn [opt_all] in *. split_andb.
    apply FloatFacts.sub_pos; try assumption.
    apply FloatFacts.not_geb_ltb.
    + eapply FloatFacts.geb_not_nan; eassumption.
    + rewrite Ex. reflexivity.
    + apply Hf. reflexivity.
  - destruct o_p as [n|].
    + rewrite <- Ep in *. cbn [opt_all] in *. split_andb.
      change (PyFloat.sub (PyFloat.of_int 1) (PyFloat.int_truediv n 100))
        with (PyFloat.percent_factor n).
      destruct (FloatFacts.percent_factor_shape n) as (m' & e' & E' & He'); [lia|].
      rewrite Ex, E'. apply FloatFacts.mul_finite_pos.
      unfold emin, PyFloat.prec, PyFloat.emax. lia.
    + rewrite Ex. reflexivity.
Qed.

(** The document built from a well-formed payload meets the constraints of
    the [Drumkit] schema. *)
Lemma drumkit_fields_valid (p : DrumkitCreate.t) (dt : datetime)
      (fp : float) (o_f : option float) (o_p : option Z) :
  DrumkitCreate.valid p = true ->
  pricing p = Ret (fp, o_f, o_p) ->
  tzinfo dt <> None ->
  Drumkit.valid (drumkit_fields p dt o_f o_p fp) = true.
Proof.
  intros V P T.
  assert (G : PyFloat.geb fp PyFloat.zero = true
              /\ opt_all (fun f => PyFloat.geb f PyFloat.zero) o_f = true
              /\ opt_all (fun n => (0 <=? n) && (n <=? 90)) o_p = true).
  { destruct (DrumkitCreate.is_free p) eqn:F.
    - destruct (pricing_inv _ _ _ _ P) as [(_ & -> & -> & ->) | (F' & _)];
        [|congruence]. repeat split.
    - pose proof (discounted_pos p fp o_f o_p V F P) as D.
      destruct (pricing_inv _ _ _ _ P) as [(F' & _) | (_ & -> & -> & -> & _)];
        [congruence|].
      rewrite (FloatFacts.is_pos_max _ D).
      split; [apply FloatFacts.is_pos_geb; assumption|].
      unfold DrumkitCreate.valid in V. split_andb. split; [|assumption].
      destruct (DrumkitCreate.offer_fixed p) as [f|]; [|reflexivity].
      cbn [opt_all] in *. split_andb. assumption. }
  destruct G as (G1 & G2 & G3).
  unfold DrumkitCreate.valid in V. split_andb.
  unfold Drumkit.valid, drumkit_fields.
  cbn [Drumkit.title Drumkit.release_at Drumkit.description Drumkit.visibility
       Drumkit.sounds_count Drumkit.price_original Drumkit.offer_fixed
       Drumkit.offer_percent Drumkit.price_final Drumkit.owner_username
       Drumkit.collaborators].
  destruct (tzinfo dt); [|congruence].
  repeat (apply andb_true_intro; split); first [assumption | reflexivity].
Qed.

Section HandlerFacts.

Variable fromisoformat : string -> option datetime.
Variable clock : datetime.
Variable fresh_id : store -> string -> Drumkit.t -> string.

(** The handler stores the validated document, once, or stores nothing. *)
Lemma create_drumkit_run (p : DrumkitCreate.t) (st : store) :
  create_drumkit fromisoformat clock fresh_id p st =
  match validate_and_price fromisoformat clock p with
  | Ret doc => (Ret (mk_response (fresh_id st "drumkit" doc)),
                (st ++ [("drumkit", doc)])%list)
  | Raise e => (Raise e, st)
  end.
Proof.
  unfold create_drumkit, validate_and_price,
    bind, lift, ret, create_document, rbind.
  destruct (check_tags p); [|reflexivity].
  destruct (pricing p) as [[[fp o_f] o_p]|]; [|reflexivity].
  destruct (release_date fromisoformat clock p) as [dt|]; [|reflexivity].
  destruct (Drumkit.new _); reflexivity.
Qed.

(** A response comes with exactly one more stored document. *)
Lemma create_drumkit_Ret_inv (p : DrumkitCreate.t) (st st' : store)
      (resp : DrumkitResponse) :
  create_drumkit fromisoformat clock fresh_id p st = (Ret resp, st') ->
  exists doc, validate_and_price fromisoformat clock p = Ret doc
              /\ st' = (st ++ [("drumkit", doc)])%list
              /\ resp = mk_response (fresh_id st "drumkit" doc).
Proof.
  rewrite create_drumkit_run.
  destruct (validate_and_price fromisoformat clock p) as [doc|e]; [|discriminate].
  intros H. injection H as <- <-. exists doc. repeat split.
Qed.

Lemma validate_and_price_Ret_inv (p : DrumkitCreate.t) (doc : Drumkit.t) :
  validate_and_price fromisoformat clock p = Ret doc ->
  exists fp o_f o_p dt,
    check_tags p = Ret tt
    /\ pricing p = Ret (fp, o_f, o_p)
    /\ release_date fromisoformat clock p = Ret dt
    /\ doc = drumkit_fields p dt o_f o_p fp.
Proof.
  unfold validate_and_price, rbind.
  destruct (check_tags p) as [[]|]; [|discriminate].
  destruct (pricing p) as [[[fp o_f] o_p]|]; [|discriminate].
  destruct (release_date fromisoformat clock p) as [dt|]; [|discriminate].
  unfold Drumkit.new. destruct (Drumkit.valid _); [|discriminate].
  intros H. injection H as <-. exists fp, o_f, o_p, dt. repeat split.
Qed.

(** The price stored with a document is the one [pricing] computed. *)
Lemma stored_price (p : DrumkitCreate.t) (st st' : store) (resp : DrumkitResponse)
      (fp : float) (o_f : option float) (o_p : option Z) :
  pricing p = Ret (fp, o_f, o_p) ->
  create_drumkit fromisoformat clock fresh_id p st = (Ret resp, st') ->
  exists doc, st' = (st ++ [("drumkit", doc)])%list
              /\ Drumkit.price_final doc = fp
              /\ Drumkit.offer_fixed doc = o_f
              /\ Drumkit.offer_percent doc = o_p.
Proof.
  intros P H. apply create_drumkit_Ret_inv in H.
  destruct H as (doc & V & -> & _).
  apply validate_and_price_Ret_inv in V.
  destruct V as (fp' & o_f' & o_p' & dt & _ & P' & _ & ->).
  rewrite P in P'. injection P' as <- <- <-.
  exists (drumkit_fields p dt o_f o_p fp). repeat split.
Qed.

Lemma release_date_unparseable (p : DrumkitCreate.t) :
  fromisoformat (str_replace "Z" "+00:00" (DrumkitCreate.release_at p)) = None ->
  release_date fromisoformat clock p = Raise InvalidReleaseDate.
Proof. unfold release_date. intros ->. reflexivity. Qed.

Lemma release_date_aware (p : DrumkitCreate.t) (dt : datetime) (b : bool) :
  fromisoformat (str_replace "Z" "+00:00" (DrumkitCreate.release_at p)) = Some dt ->
  datetime_lt (replace_second_microsecond dt)
              (replace_second_microsecond (datetime_now_utc clock)) = Ret b ->
  release_date fromisoformat clock p = if b then Raise ReleaseDateInPast else Ret dt.
Proof.
  unfold release_date. intros -> ->. destruct b; reflexivity.
Qed.

Lemma release_date_naive (p : DrumkitCreate.t) (dt : datetime) :
  fromisoformat (str_replace "Z" "+00:00" (DrumkitCreate.release_at p)) = Some dt ->
  tzinfo dt = None ->
  release_date fromisoformat clock p = Raise TypeError.
Proof.
  unfold release_date, datetime_lt. intros -> T. cbn. rewrite T. reflexivity.
Qed.

End HandlerFacts.

(** * The properties of the intake validator *)

(** C5: a submission with more than 3 tags, or with a tag longer than 15
    characters, is rejected with [InvalidTags] and nothing is stored. No
    other field is looked at: the check runs first and wins over a pricing
    or release-date failure of the same submission. *)
Theorem invalid_tags_rejected
        (fromisoformat : string -> option datetime) (clock : datetime)
        (fresh_id : store -> string -> Drumkit.t -> string)
        (p : DrumkitCreate.t) (st : store) :
  (3 < List.length (DrumkitCreate.tags p))%nat
  \/ (exists t, In t (DrumkitCreate.tags p) /\ (15 < str_len t)%nat) ->
  create_drumkit fromisoformat clock fresh_id p st = (Raise InvalidTags, st).
Proof.
  intros H. rewrite create_drumkit_run. unfold validate_and_price.
  rewrite (check_tags_bad p H). reflexivity.
Qed.

Lemma invalid_tags_rejected_witness :
  ((3 < List.length (DrumkitCreate.tags Sample.four_tags))%nat
   \/ (exists t, In t (DrumkitCreate.tags Sample.four_tags)
                 /\ (15 < str_len t)%nat))
  /\ Sample.post_drumkits Sample.four_tags [] = (Raise InvalidTags, []).
Proof.
  assert (H : (3 < List.length (DrumkitCreate.tags Sample.four_tags))%nat)
    by (cbn; lia).
  split; [left; exact H|].
  exact (invalid_tags_rejected Sample.fromisoformat Sample.clock Sample.fresh_id
                               Sample.four_tags [] (or_introl H)).
Defined.

(** A tag of 16 characters is enough. *)
Example long_tag_rejected :
  Sample.post_drumkits Sample.long_tag [] = (Raise InvalidTags, []).
Proof. vm_compute. reflexivity. Qed.

(** Characters are counted, not bytes: an accented tag of 15 characters
    passes the check, one of 16 does not. *)
Example accented_tag_counted :
  check_tags Sample2.accented = Ret tt
  /\ Sample.post_drumkits Sample2.accented_long_tag [] = (Raise InvalidTags, []).
Proof. split; vm_compute; reflexivity. Qed.

(** C2: with [is_free = true] the computed price is [0.0] whatever offers
    were supplied, the offers raise no rejection, and a stored record has
    price [0.0] and neither offer field. *)
Theorem free_price_is_zero
        (fromisoformat : string -> option datetime) (clock : datetime)
        (fresh_id : store -> string -> Drumkit.t -> string)
        (p : DrumkitCreate.t) :
  DrumkitCreate.is_free p = true ->
  pricing p = Ret (PyFloat.zero, None, None)
  /\ forall st resp st',
      create_drumkit fromisoformat clock fresh_id p st = (Ret resp, st') ->
      exists doc, st' = (st ++ [("drumkit", doc)])%list
                  /\ Drumkit.price_final doc = PyFloat.zero
                  /\ Drumkit.offer_fixed doc = None
                  /\ Drumkit.offer_percent doc = None.
Proof.
  intros F.
  assert (P : pricing p = Ret (PyFloat.zero, None, None)).
  { unfold pricing. rewrite F. reflexivity. }
  split; [exact P|].
  intros st resp st' H. exact (stored_price _ _ _ p st st' resp _ _ _ P H).
Qed.

Lemma free_price_is_zero_witness :
  DrumkitCreate.is_free Sample.free_with_offers = true
  /\ pricing Sample.free_with_offers = Ret (PyFloat.zero, None, None).
Proof.
  split; [reflexivity|].
  exact (proj1 (free_price_is_zero Sample.fromisoformat Sample.clock Sample.fresh_id
                                   Sample.free_with_offers eq_refl)).
Defined.

(** The free submission is stored, although its fixed offer is above its
    price. *)
Example free_with_offers_stored :
  exists doc,
    Sample.post_drumkits Sample.free_with_offers []
    = (Ret (mk_response "drumkit-0"), [("drumkit", doc)])
    /\ Drumkit.price_final doc = PyFloat.zero
    /\ Drumkit.offer_fixed doc = None /\ Drumkit.offer_percent doc = None.
Proof. eexists. vm_compute. repeat split. Qed.

(** C3: for a non-free submission whose fixed offer is below the original
    price, the final price is [price_original - offer_fixed] clamped at
    [0.0], whether or not a percent offer comes with it. *)
Theorem fixed_offer_price
        (fromisoformat : string -> option datetime) (clock : datetime)
        (fresh_id : store -> string -> Drumkit.t -> string)
        (p : DrumkitCreate.t) (f : float) :
  DrumkitCreate.valid p = true ->
  DrumkitCreate.is_free p = false ->
  DrumkitCreate.offer_fixed p = Some f ->
  PyFloat.ltb f (DrumkitCreate.price_original p) = true ->
  pricing p
  = Ret (PyFloat.max (PyFloat.sub (DrumkitCreate.price_original p) f) PyFloat.zero,
         Some f, DrumkitCreate.offer_percent p)
  /\ forall st resp st',
      create_drumkit fromisoformat clock fresh_id p st = (Ret resp, st') ->
      exists doc, st' = (st ++ [("drumkit", doc)])%list
                  /\ Drumkit.price_final doc
                     = PyFloat.max (PyFloat.sub (DrumkitCreate.price_original p) f)
                                   PyFloat.zero.
Proof.
  intros V F E L.
  assert (P : pricing p
              = Ret (PyFloat.max (PyFloat.sub (DrumkitCreate.price_original p) f)
                                 PyFloat.zero,
                     Some f, DrumkitCreate.offer_percent p)).
  { unfold pricing, discounted. rewrite F, E, (FloatFacts.ltb_geb _ _ L).
    unfold DrumkitCreate.valid in V. split_andb.
    destruct (DrumkitCreate.offer_percent p) as [n|]; [|reflexivity].
    cbn [opt_all] in *. split_andb.
    replace (n >? 90) with false by lia. reflexivity. }
  split; [exact P|].
  intros st resp st' H.
  destruct (stored_price _ _ _ p st st' resp _ _ _ P H) as (doc & S & Pf & _).
  exists doc. split; assumption.
Qed.

Lemma fixed_offer_price_witness :
  DrumkitCreate.valid Sample.both_offers = true
  /\ DrumkitCreate.is_free Sample.both_offers = false
  /\ DrumkitCreate.offer_fixed Sample.both_offers = Some (PyFloat.of_int 20)
  /\ PyFloat.ltb (PyFloat.of_int 20) (DrumkitCreate.price_original Sample.both_offers) = true
  /\ pricing Sample.both_offers
     = Ret (PyFloat.max (PyFloat.sub (DrumkitCreate.price_original Sample.both_offers)
                                     (PyFloat.of_int 20)) PyFloat.zero,
            Some (PyFloat.of_int 20), DrumkitCreate.offer_percent Sample.both_offers).
Proof.
  assert (V : DrumkitCreate.valid Sample.both_offers = true) by (vm_compute; reflexivity).
  assert (L : PyFloat.ltb (PyFloat.of_int 20)
                          (DrumkitCreate.price_original Sample.both_offers) = true)
    by (vm_compute; reflexivity).
  split; [exact V|]. split; [reflexivity|]. split; [reflexivity|]. split; [exact L|].
  exact (proj1 (fixed_offer_price Sample.fromisoformat Sample.clock Sample.fresh_id
                                  Sample.both_offers (PyFloat.of_int 20)
                                  V eq_refl eq_refl L)).
Defined.

(** 100.0 with 20.0 off is stored at 80.0; so it is when a percent offer
    comes along. *)
Example fixed_offer_stored :
  exists doc,
    Sample.post_drumkits Sample.fixed_offer []
    = (Ret (mk_response "drumkit-0"), [("drumkit", doc)])
    /\ Drumkit.price_final doc = PyFloat.of_int 80.
Proof. eexists. vm_compute. split; reflexivity. Qed.

Example both_offers_stored :
  exists doc,
    Sample.post_drumkits Sample.both_offers []
    = (Ret (mk_response "drumkit-0"), [("drumkit", doc)])
    /\ Drumkit.price_final doc = PyFloat.of_int 80
    /\ Drumkit.offer_percent doc = Some 50.
Proof. eexists. vm_compute. repeat split. Qed.

(** C4: for a non-free submission without a fixed offer, the final price is
    [price_original * (1 - offer_percent/100)] clamped at [0.0] when a
    percent offer is present, and [price_original] when no offer is. *)
Theorem percent_offer_price
        (fromisoformat : string -> option datetime) (clock : datetime)
        (fresh_id : store -> string -> Drumkit.t -> string)
        (p : DrumkitCreate.t) :
  DrumkitCreate.valid p = true ->
  DrumkitCreate.is_free p = false ->
  DrumkitCreate.offer_fixed p = None ->
  let price :=
    match DrumkitCreate.offer_percent p with
    | Some n =>
        PyFloat.max
          (PyFloat.mul (DrumkitCreate.price_original p)
                       (PyFloat.sub (PyFloat.of_int 1) (PyFloat.int_truediv n 100)))
          PyFloat.zero
    | None => DrumkitCreate.price_original p
    end in
  pricing p = Ret (price, None, DrumkitCreate.offer_percent p)
  /\ forall st resp st',
      create_drumkit fromisoformat clock fresh_id p st = (Ret resp, st') ->
      exists doc, st' = (st ++ [("drumkit", doc)])%list
                  /\ Drumkit.price_final doc = price.
Proof.
  intros V F E price.
  assert (P : pricing p = Ret (price, None, DrumkitCreate.offer_percent p)).
  { unfold pricing, discounted, price. rewrite F, E.
    unfold DrumkitCreate.valid in V. split_andb.
    destruct (DrumkitCreate.offer_percent p) as [n|].
    - cbn [opt_all] in *. split_andb.
      replace (n >? 90) with false by lia. reflexivity.
    - destruct (FloatFacts.price_range_inv (DrumkitCreate.price_original p))
        as (m & e & -> & _); try assumption.
      reflexivity. }
  split; [exact P|].
  intros st resp st' H.
  destruct (stored_price _ _ _ p st st' resp _ _ _ P H) as (doc & S & Pf & _).
  exists doc. split; assumption.
Qed.

Lemma percent_offer_price_witness :
  DrumkitCreate.valid Sample.percent_offer = true
  /\ DrumkitCreate.is_free Sample.percent_offer = false
  /\ DrumkitCreate.offer_fixed Sample.percent_offer = None
  /\ pricing Sample.percent_offer
     = Ret (PyFloat.max
              (PyFloat.mul (PyFloat.of_int 50)
                           (PyFloat.sub (PyFloat.of_int 1) (PyFloat.int_truediv 50 100)))
              PyFloat.zero,
            None, Some 50).
Proof.
  assert (V : DrumkitCreate.valid Sample.percent_offer = true) by (vm_compute; reflexivity).
  split; [exact V|]. split; [reflexivity|]. split; [reflexivity|].
  exact (proj1 (percent_offer_price Sample.fromisoformat Sample.clock Sample.fresh_id
                                    Sample.percent_offer V eq_refl eq_refl)).
Defined.

(** 50.0 at 50 percent off is stored at 25.0; without an offer the price is
    the original one. *)
Example percent_offer_stored :
  exists doc,
    Sample.post_drumkits Sample.percent_offer []
    = (Ret (mk_response "drumkit-0"), [("drumkit", doc)])
    /\ Drumkit.price_final doc = PyFloat.of_int 25.
Proof. eexists. vm_compute. split; reflexivity. Qed.

Example no_offer_stored :
  exists doc,
    Sample.post_drumkits Sample.no_offer []
    = (Ret (mk_response "drumkit-0"), [("drumkit", doc)])
    /\ Drumkit.price_final doc = PyFloat.of_int 100.
Proof. eexists. vm_compute. split; reflexivity. Qed.

(** C10: for a well-formed non-free submission that passes the two offer
    checks, the final price is strictly above [0.0], and it is the price as
    discounted: the clamp [max(final_price, 0.0)] changes nothing. *)
Theorem final_price_positive
        (p : DrumkitCreate.t) (fp : float) (o_f : option float) (o_p : option Z) :
  DrumkitCreate.valid p = true ->
  DrumkitCreate.is_free p = false ->
  pricing p = Ret (fp, o_f, o_p) ->
  PyFloat.gtb fp PyFloat.zero = true
  /\ fp = discounted (DrumkitCreate.price_original p)
                     (DrumkitCreate.offer_fixed p) (DrumkitCreate.offer_percent p).
Proof.
  intros V F P.
  pose proof (discounted_pos p fp o_f o_p V F P) as D.
  destruct (pricing_inv _ _ _ _ P) as [(F' & _) | (_ & -> & -> & -> & _)];
    [congruence|].
  rewrite (FloatFacts.is_pos_max _ D).
  split; [apply FloatFacts.is_pos_gtb; exact D | reflexivity].
Qed.

Lemma final_price_positive_witness :
  DrumkitCreate.valid Sample.percent_90 = true
  /\ DrumkitCreate.is_free Sample.percent_90 = false
  /\ pricing Sample.percent_90
     = Ret (PyFloat.mul (PyFloat.of_int 100) (PyFloat.percent_factor 90), None, Some 90)
  /\ PyFloat.gtb (PyFloat.mul (PyFloat.of_int 100) (PyFloat.percent_factor 90))
                 PyFloat.zero = true.
Proof.
  assert (V : DrumkitCreate.valid Sample.percent_90 = true) by (vm_compute; reflexivity).
  assert (P : pricing Sample.percent_90
              = Ret (PyFloat.mul (PyFloat.of_int 100) (PyFloat.percent_factor 90),
                     None, Some 90)) by (vm_compute; reflexivity).
  split; [exact V|]. split; [reflexivity|]. split; [exact P|].
  exact (proj1 (final_price_positive Sample.percent_90 _ _ _ V eq_refl P)).
Defined.

(** C6, as it holds: a non-free submission that passes the tag check and
    whose fixed offer is at or above the original price is rejected with
    [OfferExceedsPrice]; nothing is stored. *)
Theorem fixed_offer_too_large_rejected
        (fromisoformat : string -> option datetime) (clock : datetime)
        (fresh_id : store -> string -> Drumkit.t -> string)
        (p : DrumkitCreate.t) (f : float) (st : store) :
  (List.length (DrumkitCreate.tags p) <= 3)%nat ->
  (forall t, In t (DrumkitCreate.tags p) -> (str_len t <= 15)%nat) ->
  DrumkitCreate.is_free p = false ->
  DrumkitCreate.offer_fixed p = Some f ->
  PyFloat.geb f (DrumkitCreate.price_original p) = true ->
  create_drumkit fromisoformat clock fresh_id p st = (Raise OfferExceedsPrice, st).
Proof.
  intros T1 T2 F E G. rewrite create_drumkit_run. unfold validate_and_price.
  rewrite (check_tags_ok p T1 T2). cbn [rbind].
  unfold pricing. rewrite F, E, G. reflexivity.
Qed.

Lemma sample_tags_ok (t : string) : In t ["a"] -> (str_len t <= 15)%nat.
Proof. intros [<- | []]. cbn. lia. Qed.

Lemma fixed_offer_too_large_rejected_witness :
  (List.length (DrumkitCreate.tags Sample.offer_above_price) <= 3)%nat
  /\ DrumkitCreate.is_free Sample.offer_above_price = false
  /\ DrumkitCreate.offer_fixed Sample.offer_above_price = Some (PyFloat.of_int 150)
  /\ PyFloat.geb (PyFloat.of_int 150)
                 (DrumkitCreate.price_original Sample.offer_above_price) = true
  /\ Sample.post_drumkits Sample.offer_above_price [] = (Raise OfferExceedsPrice, []).
Proof.
  assert (T : (List.length (DrumkitCreate.tags Sample.offer_above_price) <= 3)%nat)
    by (cbn; lia).
  assert (G : PyFloat.geb (PyFloat.of_int 150)
                          (DrumkitCreate.price_original Sample.offer_above_price) = true)
    by (vm_compute; reflexivity).
  split; [exact T|]. split; [reflexivity|]. split; [reflexivity|]. split; [exact G|].
  exact (fixed_offer_too_large_rejected Sample.fromisoformat Sample.clock Sample.fresh_id
           Sample.offer_above_price (PyFloat.of_int 150) [] T sample_tags_ok
           eq_refl eq_refl G).
Defined.

(** C6 as stated fails: a non-free submission with a fixed offer above its
    price, and four tags, is rejected with [InvalidTags]. *)
Lemma fixed_offer_too_large_behind_tags :
  DrumkitCreate.is_free Sample.four_tags = false
  /\ DrumkitCreate.offer_fixed Sample.four_tags = Some (PyFloat.of_int 150)
  /\ PyFloat.geb (PyFloat.of_int 150) (DrumkitCreate.price_original Sample.four_tags) = true
  /\ Sample.post_drumkits Sample.four_tags [] = (Raise InvalidTags, [])
  /\ Sample.post_drumkits Sample.four_tags [] <> (Raise OfferExceedsPrice, []).
Proof.
  assert (R : Sample.post_drumkits Sample.four_tags [] = (Raise InvalidTags, []))
    by (vm_compute; reflexivity).
  split; [reflexivity|]. split; [reflexivity|]. split; [vm_compute; reflexivity|].
  split; [exact R|]. rewrite R. discriminate.
Qed.

Lemma check_tags_Raise (p : DrumkitCreate.t) (e : exn) :
  check_tags p = Raise e -> e = InvalidTags.
Proof.
  unfold check_tags. destruct (_ || _); [|discriminate].
  intros H. injection H as <-. reflexivity.
Qed.

Lemma pricing_Raise (p : DrumkitCreate.t) (e : exn) :
  pricing p = Raise e ->
  e = OfferExceedsPrice
  \/ (e = OfferPercentTooHigh
      /\ exists n, DrumkitCreate.offer_percent p = Some n /\ 90 < n).
Proof.
  unfold pricing. destruct (DrumkitCreate.is_free p); [discriminate|].
  destruct (match DrumkitCreate.offer_fixed p with
            | Some f => PyFloat.geb f (DrumkitCreate.price_original p)
            | None => false
            end).
  - intros H. injection H as <-. left. reflexivity.
  - destruct (DrumkitCreate.offer_percent p) as [n|]; [|discriminate].
    destruct (n >? 90) eqn:L; [|discriminate].
    intros H. injection H as <-. right. split; [reflexivity|].
    exists n. split; [reflexivity|lia].
Qed.

Lemma datetime_lt_Raise (a b : datetime) (e : exn) :
  datetime_lt a b = Raise e -> e = TypeError.
Proof.
  unfold datetime_lt.
  destruct (tzinfo a) as [oa|], (tzinfo b) as [ob|]; try discriminate;
    try (intros H; injection H as <-; reflexivity).
  destruct (oa =? ob); discriminate.
Qed.

Lemma release_date_Raise (fromisoformat : string -> option datetime) (clock : datetime)
      (p : DrumkitCreate.t) (e : exn) :
  release_date fromisoformat clock p = Raise e ->
  e = InvalidReleaseDate \/ e = ReleaseDateInPast \/ e = TypeError.
Proof.
  unfold release_date.
  destruct (fromisoformat _) as [dt|]; cbn [except_ValueError].
  - destruct (datetime_lt _ _) as [[]|e'] eqn:L; cbn [rbind except_ValueError].
    + intros H. injection H as <-. auto.
    + discriminate.
    + apply datetime_lt_Raise in L. subst e'. cbn [except_ValueError].
      intros H. injection H as <-. auto.
  - intros H. injection H as <-. auto.
Qed.

Lemma Drumkit_new_Raise (d : Drumkit.t) (e : exn) :
  Drumkit.new d = Raise e -> e = ValidationError.
Proof.
  unfold Drumkit.new. destruct (Drumkit.valid d); [discriminate|].
  intros H. injection H as <-. reflexivity.
Qed.

(** Every exception of the handler comes from one of its four steps. *)
Lemma validate_and_price_Raise (fromisoformat : string -> option datetime)
      (clock : datetime) (p : DrumkitCreate.t) (e : exn) :
  validate_and_price fromisoformat clock p = Raise e ->
  check_tags p = Raise e \/ pricing p = Raise e
  \/ release_date fromisoformat clock p = Raise e
  \/ exists d, Drumkit.new d = Raise e.
Proof.
  unfold validate_and_price, rbind.
  destruct (check_tags p); [|intros H; injection H as ->; auto].
  destruct (pricing p) as [[[fp o_f] o_p]|]; [|intros H; injection H as ->; auto].
  destruct (release_date fromisoformat clock p) as [dt|]; [|intros H; injection H as ->; auto].
  intros H. right. right. right. eexists. exact H.
Qed.

Lemma lex_lt_irrefl (l : list Z) : lex_lt l l = false.
Proof.
  induction l as [|x l IH]; cbn [lex_lt]; [reflexivity|].
  rewrite IH, Z.ltb_irrefl, andb_false_r. reflexivity.
Qed.

(** Two aware datetimes always compare. *)
Lemma datetime_lt_aware (a b : datetime) :
  tzinfo a <> None -> tzinfo b <> None -> exists r, datetime_lt a b = Ret r.
Proof.
  unfold datetime_lt. destruct (tzinfo a) as [oa|]; [|congruence].
  destruct (tzinfo b) as [ob|]; [|congruence].
  intros _ _. destruct (oa =? ob); eexists; reflexivity.
Qed.

Lemma datetime_lt_irrefl (a : datetime) :
  tzinfo a <> None -> datetime_lt a a = Ret false.
Proof.
  unfold datetime_lt. destruct (tzinfo a) as [oa|]; [|congruence].
  intros _. rewrite Z.eqb_refl, lex_lt_irrefl. reflexivity.
Qed.


(** C8: a rejection leaves the store as it was; a successful validation
    makes one document creation, in the collection ["drumkit"], and the
    identifier generated for it is the one returned. *)
Theorem storage_called_once_on_success
        (fromisoformat : string -> option datetime) (clock : datetime)
        (fresh_id : store -> string -> Drumkit.t -> string)
        (p : DrumkitCreate.t) (st : store) :
  match create_drumkit fromisoformat clock fresh_id p st with
  | (Ret resp, st') =>
      exists doc, validate_and_price fromisoformat clock p = Ret doc
                  /\ st' = (st ++ [("drumkit", doc)])%list
                  /\ id resp = fresh_id st "drumkit" doc
  | (Raise e, st') =>
      validate_and_price fromisoformat clock p = Raise e /\ st' = st
  end.
Proof.
  rewrite create_drumkit_run.
  destruct (validate_and_price fromisoformat clock p) as [doc|e].
  - exists doc. repeat split.
  - split; reflexivity.
Qed.

(** Two submissions in a row: the first is stored and named, the second is
    rejected and leaves the store with that one document. *)
Example store_after_two_requests :
  exists doc,
    Sample.post_drumkits Sample.fixed_offer []
    = (Ret (mk_response "drumkit-0"), [("drumkit", doc)])
    /\ Sample.post_drumkits Sample.offer_above_price [("drumkit", doc)]
       = (Raise OfferExceedsPrice, [("drumkit", doc)])
    /\ exists doc',
        Sample.post_drumkits Sample.percent_offer [("drumkit", doc)]
        = (Ret (mk_response "drumkit-1"), [("drumkit", doc); ("drumkit", doc')]).
Proof.
  eexists. split; [vm_compute; reflexivity|].
  split; [vm_compute; reflexivity|].
  eexists. vm_compute. reflexivity.
Qed.

(** C9: when [offer_percent], if present, lies in 0..90, no step of the
    handler raises [OfferPercentTooHigh]; the check is there all the same,
    and for a non-free payload that passes the fixed-offer check it fires
    exactly above 90. *)
Theorem percent_check_defensive
        (fromisoformat : string -> option datetime) (clock : datetime)
        (fresh_id : store -> string -> Drumkit.t -> string)
        (p : DrumkitCreate.t) :
  (opt_all (fun n => (0 <=? n) && (n <=? 90)) (DrumkitCreate.offer_percent p) = true ->
   pricing p <> Raise OfferPercentTooHigh
   /\ forall st,
       fst (create_drumkit fromisoformat clock fresh_id p st) <> Raise OfferPercentTooHigh)
  /\ (forall n,
         DrumkitCreate.is_free p = false ->
         (forall f, DrumkitCreate.offer_fixed p = Some f ->
                    PyFloat.geb f (DrumkitCreate.price_original p) = false) ->
         DrumkitCreate.offer_percent p = Some n ->
         (pricing p = Raise OfferPercentTooHigh <-> 90 < n)).
Proof.
  destruct rejections_distinct as (D1 & D2 & D3 & D4 & D5 & D6 & D7).
  split.
  - intros B.
    assert (P : pricing p <> Raise OfferPercentTooHigh).
    { intros H. apply pricing_Raise in H.
      destruct H as [H | (_ & n & E & L)]; [congruence|].
      rewrite E in B. cbn [opt_all] in B. lia. }
    split; [exact P|].
    intros st H. rewrite create_drumkit_run in H.
    destruct (validate_and_price fromisoformat clock p) as [doc|e] eqn:V;
      cbn [fst] in H; [discriminate|].
    injection H as ->.
    apply validate_and_price_Raise in V.
    destruct V as [V | [V | [V | (d & V)]]].
    + apply check_tags_Raise in V. congruence.
    + contradiction.
    + apply release_date_Raise in V. destruct V as [V | [V | V]];
        [congruence | congruence | discriminate V].
    + apply Drumkit_new_Raise in V. discriminate V.
  - intros n F G E. unfold pricing. rewrite F, E.
    destruct (DrumkitCreate.offer_fixed p) as [f|].
    + rewrite (G f eq_refl). destruct (n >? 90) eqn:L; split; intros H;
        try reflexivity; try discriminate H; lia.
    + destruct (n >? 90) eqn:L; split; intros H;
        try reflexivity; try discriminate H; lia.
Qed.

Lemma percent_check_defensive_witness :
  opt_all (fun n => (0 <=? n) && (n <=? 90))
          (DrumkitCreate.offer_percent Sample.percent_90) = true
  /\ pricing Sample.percent_90 <> Raise OfferPercentTooHigh
  /\ fst (Sample.post_drumkits Sample.percent_90 []) <> Raise OfferPercentTooHigh.
Proof.
  split; [reflexivity|].
  destruct (proj1 (percent_check_defensive Sample.fromisoformat Sample.clock
                                           Sample.fresh_id Sample.percent_90) eq_refl)
    as [P C].
  split; [exact P | exact (C [])].
Defined.

(** At 90 percent the submission is stored; 91 percent, which no
    well-formed body carries, is turned away by the check. *)
Example percent_90_stored :
  exists doc,
    Sample.post_drumkits Sample.percent_90 []
    = (Ret (mk_response "drumkit-0"), [("drumkit", doc)]).
Proof. eexists. vm_compute. reflexivity. Qed.

Example percent_91_rejected :
  Sample.post_drumkits
    (Sample.submission ["a"] "2030-01-01T10:00:00Z" 100 false None (Some 91)) []
  = (Raise OfferPercentTooHigh, []).
Proof. vm_compute. reflexivity. Qed.

(** C7, as it holds: take a well-formed submission that passes the tag and
    pricing checks and whose release time parses to an aware datetime. The
    two times cut to the minute always compare; when the release time is
    strictly before the clock, the submission is rejected with
    [ReleaseDateInPast] and nothing is stored, and otherwise it is stored.
    A release time in the clock's own minute is not before it. *)
Theorem release_minute_check
        (fromisoformat : string -> option datetime) (clock : datetime)
        (fresh_id : store -> string -> Drumkit.t -> string)
        (p : DrumkitCreate.t) (fp : float) (o_f : option float) (o_p : option Z)
        (dt : datetime) (st : store) :
  DrumkitCreate.valid p = true ->
  (List.length (DrumkitCreate.tags p) <= 3)%nat ->
  (forall t, In t (DrumkitCreate.tags p) -> (str_len t <= 15)%nat) ->
  pricing p = Ret (fp, o_f, o_p) ->
  fromisoformat (str_replace "Z" "+00:00" (DrumkitCreate.release_at p)) = Some dt ->
  tzinfo dt <> None ->
  exists past,
    datetime_lt (replace_second_microsecond dt)
                (replace_second_microsecond (datetime_now_utc clock)) = Ret past
    /\ create_drumkit fromisoformat clock fresh_id p st
       = (if past then (Raise ReleaseDateInPast, st)
          else let doc := drumkit_fields p dt o_f o_p fp in
               (Ret (mk_response (fresh_id st "drumkit" doc)),
                (st ++ [("drumkit", doc)])%list))
    /\ (replace_second_microsecond dt
        = replace_second_microsecond (datetime_now_utc clock) -> past = false).
Proof.
  intros V T1 T2 P E A.
  destruct (datetime_lt_aware (replace_second_microsecond dt)
                              (replace_second_microsecond (datetime_now_utc clock)))
    as [past L]; [exact A | discriminate |].
  exists past. split; [exact L|]. split.
  - rewrite create_drumkit_run. unfold validate_and_price.
    rewrite (check_tags_ok p T1 T2), P. cbn [rbind].
    rewrite (release_date_aware fromisoformat clock p dt past E L).
    destruct past; [reflexivity|]. cbn [rbind]. unfold Drumkit.new.
    rewrite (drumkit_fields_valid p dt fp o_f o_p V P A). reflexivity.
  - intros S. rewrite S, datetime_lt_irrefl in L by discriminate.
    injection L as <-. reflexivity.
Qed.

Lemma release_minute_check_witness :
  DrumkitCreate.valid Sample.past_minute = true
  /\ (List.length (DrumkitCreate.tags Sample.past_minute) <= 3)%nat
  /\ pricing Sample.past_minute = Ret (PyFloat.of_int 100, None, None)
  /\ Sample.fromisoformat
       (str_replace "Z" "+00:00" (DrumkitCreate.release_at Sample.past_minute))
     = Some (Sample.utc 2030 1 1 9 59 59 0)
  /\ exists past,
      datetime_lt (replace_second_microsecond (Sample.utc 2030 1 1 9 59 59 0))
                  (replace_second_microsecond (datetime_now_utc Sample.clock)) = Ret past
      /\ Sample.post_drumkits Sample.past_minute []
         = (if past then (Raise ReleaseDateInPast, [])
            else let doc := drumkit_fields Sample.past_minute
                                           (Sample.utc 2030 1 1 9 59 59 0)
                                           None None (PyFloat.of_int 100) in
                 (Ret (mk_response (Sample.fresh_id [] "drumkit" doc)),
                  ([] ++ [("drumkit", doc)])%list)).
Proof.
  assert (V : DrumkitCreate.valid Sample.past_minute = true) by (vm_compute; reflexivity).
  assert (T : (List.length (DrumkitCreate.tags Sample.past_minute) <= 3)%nat)
    by (cbn; lia).
  assert (P : pricing Sample.past_minute = Ret (PyFloat.of_int 100, None, None))
    by (vm_compute; reflexivity).
  assert (E : Sample.fromisoformat
                (str_replace "Z" "+00:00" (DrumkitCreate.release_at Sample.past_minute))
              = Some (Sample.utc 2030 1 1 9 59 59 0)) by (vm_compute; reflexivity).
  assert (A : tzinfo (Sample.utc 2030 1 1 9 59 59 0) <> None) by discriminate.
  split; [exact V|]. split; [exact T|]. split; [exact P|]. split; [exact E|].
  destruct (release_minute_check Sample.fromisoformat Sample.clock Sample.fresh_id
              Sample.past_minute _ _ _ _ [] V T sample_tags_ok P E A)
    as (past & L & R & _).
  exists past. split; [exact L | exact R].
Defined.

(** One minute behind the clock is rejected; the clock's own minute is
    accepted, also half a minute before the clock; and so is 12:00 at
    +02:00 when the clock reads 10:00 UTC. *)
Example past_minute_rejected :
  Sample.post_drumkits Sample.past_minute [] = (Raise ReleaseDateInPast, []).
Proof. vm_compute. reflexivity. Qed.

Example same_minute_stored :
  exists doc,
    Sample.post_drumkits Sample.same_minute []
    = (Ret (mk_response "drumkit-0"), [("drumkit", doc)])
    /\ Drumkit.release_at doc = Sample.utc 2030 1 1 10 0 0 0.
Proof. eexists. vm_compute. split; reflexivity. Qed.

Example same_minute_other_offset_stored :
  exists doc,
    Sample.post_drumkits
      (Sample.submission ["a"] "2030-01-01T12:00:00+02:00" 100 false None None) []
    = (Ret (mk_response "drumkit-0"), [("drumkit", doc)]).
Proof. eexists. vm_compute. reflexivity. Qed.

(** C7 as stated fails: a release time one minute behind the clock, on a
    submission with four tags, is rejected with [InvalidTags]. *)
Lemma past_release_behind_tags :
  Sample.fromisoformat
    (str_replace "Z" "+00:00" (DrumkitCreate.release_at Sample.four_tags_past))
  = Some (Sample.utc 2030 1 1 9 59 59 0)
  /\ datetime_lt (replace_second_microsecond (Sample.utc 2030 1 1 9 59 59 0))
                 (replace_second_microsecond (datetime_now_utc Sample.clock)) = Ret true
  /\ Sample.post_drumkits Sample.four_tags_past [] = (Raise InvalidTags, [])
  /\ Sample.post_drumkits Sample.four_tags_past [] <> (Raise ReleaseDateInPast, []).
Proof.
  assert (R : Sample.post_drumkits Sample.four_tags_past [] = (Raise InvalidTags, []))
    by (vm_compute; reflexivity).
  split; [vm_compute; reflexivity|]. split; [vm_compute; reflexivity|].
  split; [exact R|]. rewrite R. discriminate.
Qed.

(** C1, as it holds: a submission that passes the tag and pricing checks
    and whose release time the parser refuses is rejected with
    [InvalidReleaseDate] and nothing is stored; and a release time written
    with a final [Z] is handled as the same text with [+00:00], the UTC
    offset, in its place. *)
Theorem unparseable_release_at_rejected
        (fromisoformat : string -> option datetime) (clock : datetime)
        (fresh_id : store -> string -> Drumkit.t -> string)
        (p : DrumkitCreate.t) (fp : float) (o_f : option float) (o_p : option Z)
        (st : store) :
  (List.length (DrumkitCreate.tags p) <= 3)%nat ->
  (forall t, In t (DrumkitCreate.tags p) -> (str_len t <= 15)%nat) ->
  pricing p = Ret (fp, o_f, o_p) ->
  (fromisoformat (str_replace "Z" "+00:00" (DrumkitCreate.release_at p)) = None ->
   create_drumkit fromisoformat clock fresh_id p st = (Raise InvalidReleaseDate, st))
  /\ (forall base,
         create_drumkit fromisoformat clock fresh_id (with_release_at p (base ++ "Z")) st
         = create_drumkit fromisoformat clock fresh_id
                          (with_release_at p (base ++ "+00:00")) st).
Proof.
  intros T1 T2 P. split.
  - intros E. rewrite create_drumkit_run. unfold validate_and_price.
    rewrite (check_tags_ok p T1 T2), P. cbn [rbind].
    rewrite (release_date_unparseable fromisoformat clock p E). reflexivity.
  - intros base. rewrite !create_drumkit_run.
    unfold validate_and_price, release_date, check_tags, pricing, drumkit_fields,
      with_release_at.
    cbn [DrumkitCreate.tags DrumkitCreate.is_free DrumkitCreate.offer_fixed
         DrumkitCreate.offer_percent DrumkitCreate.price_original
         DrumkitCreate.release_at DrumkitCreate.archive_url
         DrumkitCreate.preview_urls DrumkitCreate.cover_url DrumkitCreate.title
         DrumkitCreate.description DrumkitCreate.visibility
         DrumkitCreate.sounds_count DrumkitCreate.owner_username
         DrumkitCreate.collaborators].
    rewrite !str_replace_app. reflexivity.
Qed.

Lemma unparseable_release_at_rejected_witness :
  (List.length (DrumkitCreate.tags Sample.not_a_date) <= 3)%nat
  /\ pricing Sample.not_a_date = Ret (PyFloat.of_int 100, None, None)
  /\ Sample.fromisoformat
       (str_replace "Z" "+00:00" (DrumkitCreate.release_at Sample.not_a_date)) = None
  /\ Sample.post_drumkits Sample.not_a_date [] = (Raise InvalidReleaseDate, []).
Proof.
  assert (T : (List.length (DrumkitCreate.tags Sample.not_a_date) <= 3)%nat)
    by (cbn; lia).
  assert (P : pricing Sample.not_a_date = Ret (PyFloat.of_int 100, None, None))
    by (vm_compute; reflexivity).
  assert (E : Sample.fromisoformat
                (str_replace "Z" "+00:00" (DrumkitCreate.release_at Sample.not_a_date))
              = None) by (vm_compute; reflexivity).
  split; [exact T|]. split; [exact P|]. split; [exact E|].
  exact (proj1 (unparseable_release_at_rejected
                  Sample.fromisoformat Sample.clock Sample.fresh_id
                  Sample.not_a_date _ _ _ [] T sample_tags_ok P) E).
Defined.

(** C1 as stated fails: a release time that is no date, on a submission
    with four tags, is rejected with [InvalidTags]. *)
Lemma unparseable_release_at_behind_tags :
  Sample.fromisoformat
    (str_replace "Z" "+00:00" (DrumkitCreate.release_at Sample.four_tags)) = None
  /\ Sample.post_drumkits Sample.four_tags [] = (Raise InvalidTags, [])
  /\ Sample.post_drumkits Sample.four_tags [] <> (Raise InvalidReleaseDate, []).
Proof.
  assert (R : Sample.post_drumkits Sample.four_tags [] = (Raise InvalidTags, []))
    by (vm_compute; reflexivity).
  split; [vm_compute; reflexivity|]. split; [exact R|]. rewrite R. discriminate.
Qed.

(** A release time that parses to a naive datetime is not rejected as an
    invalid date: comparing it with the aware clock raises [TypeError],
    which the handler does not catch. *)
Lemma naive_release_at_uncaught
      (fromisoformat : string -> option datetime) (clock : datetime)
      (fresh_id : store -> string -> Drumkit.t -> string)
      (p : DrumkitCreate.t) (fp : float) (o_f : option float) (o_p : option Z)
      (dt : datetime) (st : store) :
  check_tags p = Ret tt ->
  pricing p = Ret (fp, o_f, o_p) ->
  fromisoformat (str_replace "Z" "+00:00" (DrumkitCreate.release_at p)) = Some dt ->
  tzinfo dt = None ->
  create_drumkit fromisoformat clock fresh_id p st = (Raise TypeError, st).
Proof.
  intros T P E N. rewrite create_drumkit_run. unfold validate_and_price.
  rewrite T, P. cbn [rbind].
  rewrite (release_date_naive fromisoformat clock p dt E N). reflexivity.
Qed.

Example naive_date_TypeError :
  Sample.post_drumkits Sample.naive_date [] = (Raise TypeError, []).
Proof. vm_compute. reflexivity. Qed.

(** * Further properties of the handler *)

Lemma check_tags_cases (p : DrumkitCreate.t) :
  (tags_within_bounds (DrumkitCreate.tags p) /\ check_tags p = Ret tt)
  \/ (~ tags_within_bounds (DrumkitCreate.tags p)
      /\ check_tags p = Raise InvalidTags).
Proof.
  unfold check_tags, tags_within_bounds.
  destruct (Z.of_nat (List.length (DrumkitCreate.tags p)) >? 3) eqn:L.
  - right. split; [lia | reflexivity].
  - destruct (existsb (fun t => len t >? 15) (DrumkitCreate.tags p)) eqn:E;
      cbn [orb].
    + right. split; [|reflexivity].
      apply existsb_exists in E. destruct E as (t & I & Lt).
      intros [_ H]. specialize (H t I). unfold len in Lt. lia.
    + left. split; [|reflexivity]. split; [lia|].
      intros t I.
      destruct (Nat.le_gt_cases (str_len t) 15) as [H|H]; [exact H|].
      assert (X : existsb (fun t => len t >? 15) (DrumkitCreate.tags p) = true).
      { apply existsb_exists. exists t. split; [exact I|]. unfold len. lia. }
      congruence.
Qed.

(** The step an exception of the handler comes from, with the steps before
    it passed. *)
Lemma validate_and_price_Raise_steps
      (fromisoformat : string -> option datetime) (clock : datetime)
      (p : DrumkitCreate.t) (e : exn) :
  validate_and_price fromisoformat clock p = Raise e <->
  check_tags p = Raise e
  \/ (check_tags p = Ret tt /\ pricing p = Raise e)
  \/ (check_tags p = Ret tt
      /\ exists fp o_f o_p,
          pricing p = Ret (fp, o_f, o_p)
          /\ (release_date fromisoformat clock p = Raise e
              \/ exists dt, release_date fromisoformat clock p = Ret dt
                            /\ Drumkit.new (drumkit_fields p dt o_f o_p fp)
                               = Raise e)).
Proof.
  unfold validate_and_price, rbind.
  destruct (check_tags p) as [[]|e0].
  - destruct (pricing p) as [[[fp o_f] o_p]|e1].
    + destruct (release_date fromisoformat clock p) as [dt|e2].
      * split.
        -- intros H. right. right. split; [reflexivity|].
           exists fp, o_f, o_p. split; [reflexivity|]. right.
           exists dt. split; [reflexivity | exact H].
        -- intros [H | [[_ H] | (_ & fp' & o_f' & o_p' & E & [H | (dt' & E' & H)])]];
             try discriminate.
           injection E as <- <- <-. injection E' as <-. exact H.
      * split.
        -- intros H. injection H as ->. right. right. split; [reflexivity|].
           exists fp, o_f, o_p. split; [reflexivity|]. left. reflexivity.
        -- intros [H | [[_ H] | (_ & fp' & o_f' & o_p' & E & [H | (dt' & E' & H)])]];
             try discriminate.
           injection H as ->. reflexivity.
    + split.
      * intros H. injection H as ->. right. left. split; reflexivity.
      * intros [H | [[_ H] | (_ & fp' & o_f' & o_p' & E & _)]]; try discriminate.
        injection H as ->. reflexivity.
  - split.
    + intros H. injection H as ->. left. reflexivity.
    + intros [H | [[H _] | (H & _)]]; try discriminate.
      injection H as ->. reflexivity.
Qed.

Lemma create_drumkit_fst (fromisoformat : string -> option datetime) (clock : datetime)
      (fresh_id : store -> string -> Drumkit.t -> string)
      (p : DrumkitCreate.t) (st : store) (e : exn) :
  fst (create_drumkit fromisoformat clock fresh_id p st) = Raise e
  <-> validate_and_price fromisoformat clock p = Raise e.
Proof.
  rewrite create_drumkit_run.
  destruct (validate_and_price fromisoformat clock p) as [doc|e0]; cbn [fst].
  - split; discriminate.
  - split; intros H; injection H as ->; reflexivity.
Qed.

Lemma release_date_cases (fromisoformat : string -> option datetime) (clock : datetime)
      (p : DrumkitCreate.t) :
  let parsed := fromisoformat (str_replace "Z" "+00:00" (DrumkitCreate.release_at p)) in
  (parsed = None /\ release_date fromisoformat clock p = Raise InvalidReleaseDate)
  \/ (exists dt, parsed = Some dt /\ tzinfo dt = None
                 /\ release_date fromisoformat clock p = Raise TypeError)
  \/ (exists dt past,
         parsed = Some dt /\ tzinfo dt <> None
         /\ datetime_lt (replace_second_microsecond dt)
                        (replace_second_microsecond (datetime_now_utc clock)) = Ret past
         /\ release_date fromisoformat clock p
            = if past then Raise ReleaseDateInPast else Ret dt).
Proof.
  cbn zeta.
  destruct (fromisoformat _) as [dt|] eqn:E.
  - right. destruct (tzinfo dt) as [off|] eqn:T.
    + right.
      destruct (datetime_lt_aware (replace_second_microsecond dt)
                  (replace_second_microsecond (datetime_now_utc clock)))
        as [past L].
      * cbn [tzinfo replace_second_microsecond]. congruence.
      * discriminate.
      * exists dt, past. split; [reflexivity|]. split; [congruence|].
        split; [exact L|]. apply release_date_aware; assumption.
    + left. exists dt. split; [reflexivity|]. split; [exact T|].
      apply (release_date_naive fromisoformat clock p dt E T).
  - left. split; [reflexivity|]. apply release_date_unparseable. exact E.
Qed.

Lemma pricing_Ret_iff (p : DrumkitCreate.t) :
  (exists fp o_f o_p, pricing p = Ret (fp, o_f, o_p)) <-> offers_pass p.
Proof.
  unfold offers_pass. split.
  - intros (fp & o_f & o_p & P). apply pricing_inv in P.
    destruct P as [(F & _) | (_ & -> & -> & _ & Hf & Hn)]; [left; exact F|].
    right. split; assumption.
  - unfold pricing. intros [F | [Hf Hn]].
    + rewrite F. eauto.
    + destruct (DrumkitCreate.is_free p); [eauto|].
      destruct (DrumkitCreate.offer_fixed p) as [f|].
      * rewrite (Hf f eq_refl).
        destruct (DrumkitCreate.offer_percent p) as [n|]; [|eauto].
        specialize (Hn n eq_refl). replace (n >? 90) with false by lia. eauto.
      * destruct (DrumkitCreate.offer_percent p) as [n|]; [|eauto].
        specialize (Hn n eq_refl). replace (n >? 90) with false by lia. eauto.
Qed.

Lemma pricing_Raise_exceeds (p : DrumkitCreate.t) :
  pricing p = Raise OfferExceedsPrice <->
  DrumkitCreate.is_free p = false
  /\ exists f, DrumkitCreate.offer_fixed p = Some f
               /\ PyFloat.geb f (DrumkitCreate.price_original p) = true.
Proof.
  unfold pricing. destruct (DrumkitCreate.is_free p).
  - split; [discriminate | intros [H _]; discriminate H].
  - destruct (DrumkitCreate.offer_fixed p) as [f|].
    + destruct (PyFloat.geb f (DrumkitCreate.price_original p)) eqn:G.
      * split; [|reflexivity]. intros _. split; [reflexivity|]. exists f. auto.
      * split.
        -- destruct (DrumkitCreate.offer_percent p) as [n|]; [|discriminate].
           destruct (n >? 90); discriminate.
        -- intros (_ & f' & E & G'). injection E as <-. congruence.
    + split.
      * destruct (DrumkitCreate.offer_percent p) as [n|]; [|discriminate].
        destruct (n >? 90); discriminate.
      * intros (_ & f' & E & _). discriminate E.
Qed.

(** Where an exception of the handler comes from, and what it then is. *)
Lemma raise_sources (fromisoformat : string -> option datetime) (clock : datetime)
      (p : DrumkitCreate.t) (e : exn) :
  validate_and_price fromisoformat clock p = Raise e ->
  (e = InvalidTags /\ ~ tags_within_bounds (DrumkitCreate.tags p))
  \/ (tags_within_bounds (DrumkitCreate.tags p) /\ pricing p = Raise e
      /\ (e = OfferExceedsPrice \/ e = OfferPercentTooHigh))
  \/ (tags_within_bounds (DrumkitCreate.tags p) /\ offers_pass p
      /\ release_date fromisoformat clock p = Raise e
      /\ (e = InvalidReleaseDate \/ e = ReleaseDateInPast \/ e = TypeError))
  \/ (tags_within_bounds (DrumkitCreate.tags p) /\ offers_pass p
      /\ e = ValidationError
      /\ exists dt, release_date fromisoformat clock p = Ret dt).
Proof.
  intros H. apply validate_and_price_Raise_steps in H.
  destruct (check_tags_cases p) as [[B T] | [B T]].
  - destruct H as [H | [[_ H] | (_ & fp & o_f & o_p & P & [H | (dt & R & H)])]].
    + congruence.
    + right. left. split; [exact B|]. split; [exact H|].
      destruct (pricing_Raise _ _ H) as [-> | [-> _]]; auto.
    + right. right. left. split; [exact B|].
      split; [apply pricing_Ret_iff; eauto|]. split; [exact H|].
      exact (release_date_Raise _ _ _ _ H).
    + right. right. right. split; [exact B|].
      split; [apply pricing_Ret_iff; eauto|].
      split; [exact (Drumkit_new_Raise _ _ H) | eauto].
  - left. split; [|exact B].
    destruct H as [H | [[H _] | (H & _)]]; congruence.
Qed.

(** X1: A submission is rejected with [InvalidTags] exactly when it has more
    than 3 tags or a tag of more than 15 characters: tags within the bounds
    are never held against it. *)
Theorem InvalidTags_exactly
        (fromisoformat : string -> option datetime) (clock : datetime)
        (fresh_id : store -> string -> Drumkit.t -> string)
        (p : DrumkitCreate.t) (st : store) :
  fst (create_drumkit fromisoformat clock fresh_id p st) = Raise InvalidTags
  <-> ~ tags_within_bounds (DrumkitCreate.tags p).
Proof.
  rewrite create_drumkit_fst. split.
  - intros H. apply raise_sources in H.
    destruct H as [[_ B] | [(_ & _ & [E | E]) | [(_ & _ & _ & [E | [E | E]])
                                                | (_ & _ & E & _)]]];
      [exact B | discriminate E ..].
  - intros B. apply validate_and_price_Raise_steps. left.
    destruct (check_tags_cases p) as [[B' _] | [_ T]]; [contradiction | exact T].
Qed.

(** X2: A submission is rejected with [OfferExceedsPrice] exactly when its tags
    are within bounds, it is not free and its fixed offer is at or above
    its price; a percent offer, however large, does not change that. *)
Theorem OfferExceedsPrice_exactly
        (fromisoformat : string -> option datetime) (clock : datetime)
        (fresh_id : store -> string -> Drumkit.t -> string)
        (p : DrumkitCreate.t) (st : store) :
  fst (create_drumkit fromisoformat clock fresh_id p st) = Raise OfferExceedsPrice
  <-> tags_within_bounds (DrumkitCreate.tags p)
      /\ DrumkitCreate.is_free p = false
      /\ exists f, DrumkitCreate.offer_fixed p = Some f
                   /\ PyFloat.geb f (DrumkitCreate.price_original p) = true.
Proof.
  rewrite create_drumkit_fst. split.
  - intros H. apply raise_sources in H.
    destruct H as [[E _] | [(B & P & _) | [(_ & _ & _ & [E | [E | E]])
                                          | (_ & _ & E & _)]]];
      try discriminate E.
    split; [exact B|]. apply pricing_Raise_exceeds. exact P.
  - intros (B & H). apply validate_and_price_Raise_steps. right. left.
    split; [|apply pricing_Raise_exceeds; exact H].
    destruct (check_tags_cases p) as [[_ T] | [B' _]]; [exact T | contradiction].
Qed.

(** X3: A submission is rejected with [InvalidReleaseDate] exactly when it
    passes the tag and offer checks and the parser refuses its release
    time. *)
Theorem InvalidReleaseDate_exactly
        (fromisoformat : string -> option datetime) (clock : datetime)
        (fresh_id : store -> string -> Drumkit.t -> string)
        (p : DrumkitCreate.t) (st : store) :
  fst (create_drumkit fromisoformat clock fresh_id p st) = Raise InvalidReleaseDate
  <-> tags_within_bounds (DrumkitCreate.tags p)
      /\ offers_pass p
      /\ fromisoformat (str_replace "Z" "+00:00" (DrumkitCreate.release_at p)) = None.
Proof.
  rewrite create_drumkit_fst. split.
  - intros H. apply raise_sources in H.
    destruct H as [[E _] | [(_ & _ & [E | E]) | [(B & O & R & _) | (_ & _ & E & _)]]];
      try discriminate E.
    split; [exact B|]. split; [exact O|].
    destruct (release_date_cases fromisoformat clock p)
      as [[N _] | [(dt & _ & _ & R') | (dt & past & _ & _ & _ & R')]];
      [exact N | rewrite R in R'; discriminate R' |].
    rewrite R in R'. destruct past; discriminate R'.
  - intros (B & O & N). apply validate_and_price_Raise_steps. right. right.
    destruct (check_tags_cases p) as [[_ T] | [B' _]]; [|contradiction].
    split; [exact T|]. apply pricing_Ret_iff in O.
    destruct O as (fp & o_f & o_p & P). exists fp, o_f, o_p.
    split; [exact P|]. left. apply release_date_unparseable. exact N.
Qed.

(** X4: A submission is rejected with [ReleaseDateInPast] exactly when it
    passes the tag and offer checks and its release time parses to a value
    that, cut to the minute, compares below the clock cut to the minute. *)
Theorem ReleaseDateInPast_exactly
        (fromisoformat : string -> option datetime) (clock : datetime)
        (fresh_id : store -> string -> Drumkit.t -> string)
        (p : DrumkitCreate.t) (st : store) :
  fst (create_drumkit fromisoformat clock fresh_id p st) = Raise ReleaseDateInPast
  <-> tags_within_bounds (DrumkitCreate.tags p)
      /\ offers_pass p
      /\ exists dt,
          fromisoformat (str_replace "Z" "+00:00" (DrumkitCreate.release_at p)) = Some dt
          /\ datetime_lt (replace_second_microsecond dt)
                         (replace_second_microsecond (datetime_now_utc clock))
             = Ret true.
Proof.
  rewrite create_drumkit_fst. split.
  - intros H. apply raise_sources in H.
    destruct H as [[E _] | [(_ & _ & [E | E]) | [(B & O & R & _) | (_ & _ & E & _)]]];
      try discriminate E.
    split; [exact B|]. split; [exact O|].
    destruct (release_date_cases fromisoformat clock p)
      as [[_ R'] | [(dt & _ & _ & R') | (dt & past & E & _ & L & R')]];
      [rewrite R in R'; discriminate R' | rewrite R in R'; discriminate R' |].
    exists dt. split; [exact E|]. rewrite R in R'.
    destruct past; [exact L | discriminate R'].
  - intros (B & O & dt & E & L). apply validate_and_price_Raise_steps. right. right.
    destruct (check_tags_cases p) as [[_ T] | [B' _]]; [|contradiction].
    split; [exact T|]. apply pricing_Ret_iff in O.
    destruct O as (fp & o_f & o_p & P). exists fp, o_f, o_p.
    split; [exact P|]. left.
    exact (release_date_aware fromisoformat clock p dt true E L).
Qed.

(** X5: The handler fails with an uncaught [TypeError] exactly when a
    submission passes the tag and offer checks and its release time parses
    to a naive datetime, one without an offset: such a time is neither
    accepted nor rejected as an invalid date. *)
Theorem TypeError_exactly
        (fromisoformat : string -> option datetime) (clock : datetime)
        (fresh_id : store -> string -> Drumkit.t -> string)
        (p : DrumkitCreate.t) (st : store) :
  fst (create_drumkit fromisoformat clock fresh_id p st) = Raise TypeError
  <-> tags_within_bounds (DrumkitCreate.tags p)
      /\ offers_pass p
      /\ exists dt,
          fromisoformat (str_replace "Z" "+00:00" (DrumkitCreate.release_at p)) = Some dt
          /\ tzinfo dt = None.
Proof.
  rewrite create_drumkit_fst. split.
  - intros H. apply raise_sources in H.
    destruct H as [[E _] | [(_ & _ & [E | E]) | [(B & O & R & _) | (_ & _ & E & _)]]];
      try discriminate E.
    split; [exact B|]. split; [exact O|].
    destruct (release_date_cases fromisoformat clock p)
      as [[_ R'] | [(dt & E & T & _) | (dt & past & _ & _ & _ & R')]];
      [rewrite R in R'; discriminate R' | eauto |].
    rewrite R in R'. destruct past; discriminate R'.
  - intros (B & O & dt & E & N). apply validate_and_price_Raise_steps. right. right.
    destruct (check_tags_cases p) as [[_ T] | [B' _]]; [|contradiction].
    split; [exact T|]. apply pricing_Ret_iff in O.
    destruct O as (fp & o_f & o_p & P). exists fp, o_f, o_p.
    split; [exact P|]. left.
    exact (release_date_naive fromisoformat clock p dt E N).
Qed.

Example with_naive_date :
  Sample.post_drumkits Sample.naive_date [("drumkit", drumkit_fields Sample.no_offer
                                             (Sample.utc 2030 1 1 10 0 0 0)
                                             None None (PyFloat.of_int 100))]
  = (Raise TypeError, [("drumkit", drumkit_fields Sample.no_offer
                                     (Sample.utc 2030 1 1 10 0 0 0)
                                     None None (PyFloat.of_int 100))]).
Proof. vm_compute. reflexivity. Qed.

Lemma release_date_Ret_inv (fromisoformat : string -> option datetime) (clock : datetime)
      (p : DrumkitCreate.t) (dt : datetime) :
  release_date fromisoformat clock p = Ret dt <->
  fromisoformat (str_replace "Z" "+00:00" (DrumkitCreate.release_at p)) = Some dt
  /\ datetime_lt (replace_second_microsecond dt)
                 (replace_second_microsecond (datetime_now_utc clock)) = Ret false.
Proof.
  split.
  - intros R.
    destruct (release_date_cases fromisoformat clock p)
      as [[_ R'] | [(dt' & _ & _ & R') | (dt' & past & E & _ & L & R')]];
      rewrite R in R'; try discriminate R'.
    destruct past; [discriminate R'|]. injection R' as ->. split; assumption.
  - intros [E L]. exact (release_date_aware fromisoformat clock p dt false E L).
Qed.

Lemma datetime_lt_Ret_aware (a b : datetime) (r : bool) :
  tzinfo b <> None -> datetime_lt a b = Ret r -> tzinfo a <> None.
Proof.
  unfold datetime_lt. destruct (tzinfo a); [discriminate|].
  destruct (tzinfo b); [discriminate | congruence].
Qed.

Lemma release_date_Ret_aware (fromisoformat : string -> option datetime)
      (clock : datetime) (p : DrumkitCreate.t) (dt : datetime) :
  release_date fromisoformat clock p = Ret dt -> tzinfo dt <> None.
Proof.
  intros R. apply release_date_Ret_inv in R. destruct R as [_ L].
  apply datetime_lt_Ret_aware in L; [exact L | discriminate].
Qed.

(** X6: Building the document never fails for a well-formed body: the handler
    does not raise [ValidationError] on it. Its outcome is then a stored
    document, one of the five rejections, or the [TypeError] of a naive
    release time. *)
Theorem well_formed_never_ValidationError
        (fromisoformat : string -> option datetime) (clock : datetime)
        (fresh_id : store -> string -> Drumkit.t -> string)
        (p : DrumkitCreate.t) (st : store) :
  DrumkitCreate.valid p = true ->
  fst (create_drumkit fromisoformat clock fresh_id p st) <> Raise ValidationError.
Proof.
  intros V H. apply create_drumkit_fst, validate_and_price_Raise_steps in H.
  destruct H as [H | [[_ H] | (_ & fp & o_f & o_p & P & [H | (dt & R & H)])]].
  - apply check_tags_Raise in H. discriminate H.
  - apply pricing_Raise in H. destruct H as [H | [H _]]; discriminate H.
  - apply release_date_Raise in H. destruct H as [H | [H | H]]; discriminate H.
  - unfold Drumkit.new in H.
    rewrite (drumkit_fields_valid p dt fp o_f o_p V P
               (release_date_Ret_aware _ _ _ _ R)) in H.
    discriminate H.
Qed.

Lemma well_formed_never_ValidationError_witness :
  DrumkitCreate.valid Sample2.accented = true
  /\ fst (Sample.post_drumkits Sample2.accented []) <> Raise ValidationError.
Proof.
  assert (V : DrumkitCreate.valid Sample2.accented = true) by (vm_compute; reflexivity).
  split; [exact V|].
  exact (well_formed_never_ValidationError Sample.fromisoformat Sample.clock
           Sample.fresh_id Sample2.accented [] V).
Defined.

(** The body with the accented title of 60 characters and the accented tag
    of 15 reaches the construction of the document and is stored. *)
Example accented_stored :
  exists doc,
    Sample.post_drumkits Sample2.accented []
    = (Ret (mk_response "drumkit-0"), [("drumkit", doc)])
    /\ map str_len (Drumkit.tags doc) = [15%nat]
    /\ map String.length (Drumkit.tags doc) = [16%nat]
    /\ str_len (Drumkit.title doc) = 60%nat
    /\ Drumkit.price_final doc = PyFloat.of_int 80.
Proof. eexists. vm_compute. repeat split. Qed.

(** X7: A well-formed submission is accepted exactly when its tags are within
    bounds, its offers pass, and its release time parses to a value that,
    cut to the minute, does not compare below the clock cut to the
    minute. *)
Theorem accepted_exactly
        (fromisoformat : string -> option datetime) (clock : datetime)
        (fresh_id : store -> string -> Drumkit.t -> string)
        (p : DrumkitCreate.t) (st : store) :
  DrumkitCreate.valid p = true ->
  ((exists resp, fst (create_drumkit fromisoformat clock fresh_id p st) = Ret resp)
   <-> tags_within_bounds (DrumkitCreate.tags p)
       /\ offers_pass p
       /\ exists dt,
           fromisoformat (str_replace "Z" "+00:00" (DrumkitCreate.release_at p))
           = Some dt
           /\ datetime_lt (replace_second_microsecond dt)
                          (replace_second_microsecond (datetime_now_utc clock))
              = Ret false).
Proof.
  intros V. rewrite create_drumkit_run. split.
  - intros [resp H].
    destruct (validate_and_price fromisoformat clock p) as [doc|e] eqn:E;
      [|discriminate H].
    apply validate_and_price_Ret_inv in E.
    destruct E as (fp & o_f & o_p & dt & T & P & R & _).
    destruct (check_tags_cases p) as [[B _] | [_ T']]; [|congruence].
    split; [exact B|]. split; [apply pricing_Ret_iff; eauto|].
    exists dt. apply release_date_Ret_inv. exact R.
  - intros (B & O & dt & E & L).
    apply pricing_Ret_iff in O. destruct O as (fp & o_f & o_p & P).
    unfold validate_and_price.
    destruct (check_tags_cases p) as [[_ T] | [B' _]]; [|contradiction].
    rewrite T, P. cbn [rbind].
    rewrite (release_date_aware fromisoformat clock p dt false E L). cbn [rbind].
    unfold Drumkit.new.
    rewrite (drumkit_fields_valid p dt fp o_f o_p V P).
    + eexists. reflexivity.
    + apply datetime_lt_Ret_aware in L; [exact L | discriminate].
Qed.

Lemma accepted_exactly_witness :
  DrumkitCreate.valid Sample2.full_tags = true
  /\ ((exists resp, fst (Sample.post_drumkits Sample2.full_tags []) = Ret resp)
      <-> tags_within_bounds (DrumkitCreate.tags Sample2.full_tags)
          /\ offers_pass Sample2.full_tags
          /\ exists dt,
              Sample.fromisoformat
                (str_replace "Z" "+00:00" (DrumkitCreate.release_at Sample2.full_tags))
              = Some dt
              /\ datetime_lt (replace_second_microsecond dt)
                             (replace_second_microsecond (datetime_now_utc Sample.clock))
                 = Ret false).
Proof.
  assert (V : DrumkitCreate.valid Sample2.full_tags = true) by (vm_compute; reflexivity).
  split; [exact V|].
  exact (accepted_exactly Sample.fromisoformat Sample.clock Sample.fresh_id
                          Sample2.full_tags [] V).
Defined.

(** Three tags of 15 characters each are within the bounds. *)
Example full_tags_stored :
  exists doc,
    Sample.post_drumkits Sample2.full_tags []
    = (Ret (mk_response "drumkit-0"), [("drumkit", doc)])
    /\ List.length (Drumkit.tags doc) = 3%nat
    /\ map str_len (Drumkit.tags doc) = [15; 15; 15]%nat.
Proof. eexists. vm_compute. repeat split. Qed.



Lemma validate_and_price_Ret_valid
      (fromisoformat : string -> option datetime) (clock : datetime)
      (p : DrumkitCreate.t) (doc : Drumkit.t) :
  validate_and_price fromisoformat clock p = Ret doc -> Drumkit.valid doc = true.
Proof.
  unfold validate_and_price, rbind.
  destruct (check_tags p); [|discriminate].
  destruct (pricing p) as [[[fp o_f] o_p]|]; [|discriminate].
  destruct (release_date fromisoformat clock p) as [dt|]; [|discriminate].
  unfold Drumkit.new.
  destruct (Drumkit.valid (drumkit_fields p dt o_f o_p fp)) eqn:V; [|discriminate].
  intros H. injection H as <-. exact V.
Qed.

(** X9: Whatever the request, well-formed or not, every entry the handler adds
    to the store lies in the collection ["drumkit"], meets the [Drumkit]
    schema, has at most 3 tags of at most 15 characters, is priced [0.0]
    without offers when it is free, and otherwise has no fixed offer at or
    above its price. *)
Theorem store_invariant
        (fromisoformat : string -> option datetime) (clock : datetime)
        (fresh_id : store -> string -> Drumkit.t -> string)
        (p : DrumkitCreate.t) (st : store) :
  Forall stored_ok st ->
  Forall stored_ok (snd (create_drumkit fromisoformat clock fresh_id p st)).
Proof.
  intros I. rewrite create_drumkit_run.
  destruct (validate_and_price fromisoformat clock p) as [doc|e] eqn:E;
    cbn [snd]; [|exact I].
  apply Forall_app. split; [exact I|].
  constructor; [|constructor].
  pose proof (validate_and_price_Ret_valid _ _ _ _ E) as V.
  apply validate_and_price_Ret_inv in E.
  destruct E as (fp & o_f & o_p & dt & T & P & _ & ->).
  unfold stored_ok. cbn [fst snd].
  split; [reflexivity|]. split; [exact V|]. split.
  - destruct (check_tags_cases p) as [[B _] | [_ T']]; [exact B | congruence].
  - cbn [drumkit_fields Drumkit.is_free Drumkit.price_final Drumkit.offer_fixed
         Drumkit.offer_percent Drumkit.price_original].
    destruct (pricing_inv _ _ _ _ P) as [(F & -> & -> & ->) | (F & _ & _ & _ & Hf & _)].
    + split; [auto | congruence].
    + split; [congruence | intros _; exact Hf].
Qed.

Lemma store_invariant_witness :
  Forall stored_ok []
  /\ Forall stored_ok (snd (Sample.post_drumkits Sample.both_offers [])).
Proof.
  split; [constructor|].
  exact (store_invariant Sample.fromisoformat Sample.clock Sample.fresh_id
                         Sample.both_offers [] (Forall_nil _)).
Defined.

Lemma steps_agree (fromisoformat : string -> option datetime) (clock : datetime)
      (p q : DrumkitCreate.t) :
  same_checked_fields p q ->
  check_tags p = check_tags q /\ pricing p = pricing q
  /\ release_date fromisoformat clock p = release_date fromisoformat clock q.
Proof.
  intros (E1 & E2 & E3 & E4 & E5 & E6).
  unfold check_tags, pricing, release_date.
  rewrite E1, E2, E3, E4, E5, E6. repeat split.
Qed.

Lemma well_formed_Raise_iff (fromisoformat : string -> option datetime)
      (clock : datetime) (p : DrumkitCreate.t) (e : exn) :
  DrumkitCreate.valid p = true ->
  (validate_and_price fromisoformat clock p = Raise e <->
   check_tags p = Raise e
   \/ (check_tags p = Ret tt /\ pricing p = Raise e)
   \/ (check_tags p = Ret tt /\ (exists x, pricing p = Ret x)
       /\ release_date fromisoformat clock p = Raise e)).
Proof.
  intros V. rewrite validate_and_price_Raise_steps. split.
  - intros [H | [H | (T & fp & o_f & o_p & P & [H | (dt & R & H)])]]; auto.
    + right. right. eauto.
    + exfalso. unfold Drumkit.new in H.
      rewrite (drumkit_fields_valid p dt fp o_f o_p V P
                 (release_date_Ret_aware _ _ _ _ R)) in H.
      discriminate H.
  - intros [H | [H | (T & [[[fp o_f] o_p] P] & H)]]; auto.
    right. right. split; [exact T|]. exists fp, o_f, o_p. auto.
Qed.

(** X10: For well-formed bodies the handler's verdict depends on six fields
    only: tags, is_free, price_original, the two offers and release_at.
    Two bodies that agree on them are accepted together or fail with the
    same exception, whatever their titles, descriptions, owners or
    collaborators. *)
Theorem verdict_depends_on_checked_fields
        (fromisoformat : string -> option datetime) (clock : datetime)
        (fresh_id : store -> string -> Drumkit.t -> string)
        (p q : DrumkitCreate.t) (st : store) :
  DrumkitCreate.valid p = true ->
  DrumkitCreate.valid q = true ->
  same_checked_fields p q ->
  forall e,
    fst (create_drumkit fromisoformat clock fresh_id p st) = Raise e
    <-> fst (create_drumkit fromisoformat clock fresh_id q st) = Raise e.
Proof.
  intros Vp Vq S e.
  destruct (steps_agree fromisoformat clock p q S) as (E1 & E2 & E3).
  rewrite !create_drumkit_fst.
  rewrite (well_formed_Raise_iff _ _ p e Vp), (well_formed_Raise_iff _ _ q e Vq).
  rewrite E1, E2, E3. reflexivity.
Qed.

Lemma verdict_depends_on_checked_fields_witness :
  DrumkitCreate.valid Sample.past_minute = true
  /\ DrumkitCreate.valid
       (DrumkitCreate.mk (Some "kit.zip") ["a.mp3"] None "Another title"
                         "2030-01-01T09:59:59Z" (Some "text") "privado" ["a"] 999
                         (PyFloat.of_int 100) false None None "someone"
                         [Collaborator.mk "x" "productor" 100;
                          Collaborator.mk "y" "Artista" 100]) = true
  /\ fst (Sample.post_drumkits
            (DrumkitCreate.mk (Some "kit.zip") ["a.mp3"] None "Another title"
                              "2030-01-01T09:59:59Z" (Some "text") "privado" ["a"] 999
                              (PyFloat.of_int 100) false None None "someone"
                              [Collaborator.mk "x" "productor" 100;
                               Collaborator.mk "y" "Artista" 100]) [])
     = Raise ReleaseDateInPast.
Proof.
  assert (Vp : DrumkitCreate.valid Sample.past_minute = true) by (vm_compute; reflexivity).
  assert (Vq : DrumkitCreate.valid
                 (DrumkitCreate.mk (Some "kit.zip") ["a.mp3"] None "Another title"
                         "2030-01-01T09:59:59Z" (Some "text") "privado" ["a"] 999
                         (PyFloat.of_int 100) false None None "someone"
                         [Collaborator.mk "x" "productor" 100;
                          Collaborator.mk "y" "Artista" 100]) = true)
    by (vm_compute; reflexivity).
  split; [exact Vp|]. split; [exact Vq|].
  apply (proj1 (verdict_depends_on_checked_fields
                  Sample.fromisoformat Sample.clock Sample.fresh_id
                  Sample.past_minute _ [] Vp Vq
                  (conj eq_refl (conj eq_refl (conj eq_refl
                     (conj eq_refl (conj eq_refl eq_refl))))) ReleaseDateInPast)).
  vm_compute. reflexivity.
Defined.

Lemma lex_lt_cut (a b t t' : list Z) :
  List.length a = List.length b ->
  lex_lt (a ++ [0; 0]) (b ++ [0; 0]) = true ->
  lex_lt (a ++ t) (b ++ t') = true.
Proof.
  revert b. induction a as [|x a IH]; intros [|y b] L; try discriminate L.
  - cbn. discriminate.
  - cbn [List.app lex_lt]. intros H.
    apply orb_true_iff in H. apply orb_true_iff.
    destruct H as [H | H]; [left; exact H|].
    apply andb_true_iff in H. destruct H as [H1 H2].
    right. apply andb_true_iff. split; [exact H1|].
    apply IH; [|exact H2]. cbn in L. congruence.
Qed.

(** With clock-face seconds and an offset of whole minutes, a time that,
    cut to the minute, compares below the clock cut to the minute, compares
    below the clock as it is. *)
Lemma cut_lt_implies_lt (dt now : datetime) (off : Z) :
  tzinfo dt = Some off -> tzinfo now = Some 0 ->
  off mod 60000000 = 0 ->
  seconds_in_range dt -> seconds_in_range now ->
  datetime_lt (replace_second_microsecond dt) (replace_second_microsecond now)
  = Ret true ->
  datetime_lt dt now = Ret true.
Proof.
  intros Td Tn Hoff [Hs Hu] [Hs' Hu'].
  unfold datetime_lt. cbn [tzinfo replace_second_microsecond]. rewrite Td, Tn.
  destruct (off =? 0) eqn:E.
  - intros H. injection H as H. f_equal.
    exact (lex_lt_cut [year dt; month dt; day dt; hour dt; minute dt]
                      [year now; month now; day now; hour now; minute now]
                      [second dt; microsecond dt] [second now; microsecond now]
                      eq_refl H).
  - intros H. injection H as H. f_equal.
    unfold wall_micros in *.
    cbn [year month day hour minute second microsecond replace_second_microsecond] in H.
    apply Z.ltb_lt in H. apply Z.ltb_lt.
    apply Z.mod_divide in Hoff; [|lia]. destruct Hoff as [k ->].
    generalize dependent (ymd2ord (year dt) (month dt) (day dt)).
    generalize dependent (ymd2ord (year now) (month now) (day now)).
    intros. lia.
Qed.

Lemma stored_when (fromisoformat : string -> option datetime) (clock : datetime)
      (fresh_id : store -> string -> Drumkit.t -> string)
      (p : DrumkitCreate.t) (dt : datetime) (st : store) :
  DrumkitCreate.valid p = true ->
  tags_within_bounds (DrumkitCreate.tags p) ->
  offers_pass p ->
  fromisoformat (str_replace "Z" "+00:00" (DrumkitCreate.release_at p)) = Some dt ->
  datetime_lt (replace_second_microsecond dt)
              (replace_second_microsecond (datetime_now_utc clock)) = Ret false ->
  exists doc,
    create_drumkit fromisoformat clock fresh_id p st
    = (Ret (mk_response (fresh_id st "drumkit" doc)), (st ++ [("drumkit", doc)])%list)
    /\ Drumkit.release_at doc = dt.
Proof.
  intros V [B1 B2] O E L.
  apply pricing_Ret_iff in O. destruct O as (fp & o_f & o_p & P).
  exists (drumkit_fields p dt o_f o_p fp). split; [|reflexivity].
  rewrite create_drumkit_run. unfold validate_and_price.
  rewrite (check_tags_ok p B1 B2), P. cbn [rbind].
  rewrite (release_date_aware fromisoformat clock p dt false E L). cbn [rbind].
  unfold Drumkit.new. rewrite (drumkit_fields_valid p dt fp o_f o_p V P); [reflexivity|].
  apply datetime_lt_Ret_aware in L; [exact L | discriminate].
Qed.

(** X11: A release time that is not before the current time is never turned
    away as past: a well-formed submission that passes the tag and offer
    checks, with a release time at an offset of whole minutes that does not
    compare below the clock, is stored. *)
Theorem release_not_before_now_is_stored
        (fromisoformat : string -> option datetime) (clock : datetime)
        (fresh_id : store -> string -> Drumkit.t -> string)
        (p : DrumkitCreate.t) (dt : datetime) (off : Z) (st : store) :
  DrumkitCreate.valid p = true ->
  tags_within_bounds (DrumkitCreate.tags p) ->
  offers_pass p ->
  fromisoformat (str_replace "Z" "+00:00" (DrumkitCreate.release_at p)) = Some dt ->
  tzinfo dt = Some off ->
  off mod 60000000 = 0 ->
  seconds_in_range dt ->
  seconds_in_range clock ->
  datetime_lt dt (datetime_now_utc clock) = Ret false ->
  exists doc,
    create_drumkit fromisoformat clock fresh_id p st
    = (Ret (mk_response (fresh_id st "drumkit" doc)), (st ++ [("drumkit", doc)])%list)
    /\ Drumkit.release_at doc = dt.
Proof.
  intros V B O E T Hoff Rd Rc L.
  apply stored_when; try assumption.
  destruct (datetime_lt_aware (replace_second_microsecond dt)
              (replace_second_microsecond (datetime_now_utc clock)))
    as [[] C]; [cbn; congruence | discriminate | | exact C].
  apply (cut_lt_implies_lt dt (datetime_now_utc clock) off T eq_refl Hoff Rd) in C;
    [congruence | exact Rc].
Qed.

Lemma in_one_tag (t : string) : In t ["a"] -> (str_len t <= 15)%nat.
Proof. intros [<- | []]. cbn. lia. Qed.

Lemma release_not_before_now_is_stored_witness :
  exists doc,
    create_drumkit Sample2.fromisoformat Sample.clock Sample.fresh_id
                   Sample2.with_seconds []
    = (Ret (mk_response (Sample.fresh_id [] "drumkit" doc)),
       ([] ++ [("drumkit", doc)])%list)
    /\ Drumkit.release_at doc = mk_datetime 2030 1 1 10 0 59 250000 (Some 0).
Proof.
  assert (V : DrumkitCreate.valid Sample2.with_seconds = true)
    by (vm_compute; reflexivity).
  assert (B : tags_within_bounds (DrumkitCreate.tags Sample2.with_seconds)).
  { split; [cbn; lia | exact in_one_tag]. }
  assert (O : offers_pass Sample2.with_seconds).
  { right. split; intros x H; discriminate H. }
  assert (Rd : seconds_in_range (mk_datetime 2030 1 1 10 0 59 250000 (Some 0))).
  { unfold seconds_in_range. cbn. lia. }
  assert (Rc : seconds_in_range Sample.clock).
  { unfold seconds_in_range. cbn. lia. }
  exact (release_not_before_now_is_stored
           Sample2.fromisoformat Sample.clock Sample.fresh_id Sample2.with_seconds
           (mk_datetime 2030 1 1 10 0 59 250000 (Some 0)) 0 []
           V B O eq_refl eq_refl eq_refl Rd Rc eq_refl).
Defined.

(** The offset has to be one of whole minutes: at [+00:00:30], a release
    time five seconds after the clock is rejected as past. *)
Example odd_offset_rejected :
  datetime_lt Sample2.half_minute_offset (datetime_now_utc Sample2.clock) = Ret false
  /\ create_drumkit Sample2.fromisoformat Sample2.clock Sample.fresh_id
                    Sample2.odd_offset []
     = (Raise ReleaseDateInPast, []).
Proof. split; vm_compute; reflexivity. Qed.

Lemma has_char_app (c : ascii) (s t : string) :
  has_char c (s ++ t) = has_char c s || has_char c t.
Proof.
  induction s as [|d s IH]; cbn [String.append has_char]; [reflexivity|].
  rewrite IH, orb_assoc. reflexivity.
Qed.

(** X12: [release_at.replace("Z", "+00:00")] leaves no [Z] for the parser,
    wherever it stood, and hands over a text without [Z] as it is. *)
Theorem no_Z_reaches_parser (s : string) :
  has_char "Z" (str_replace "Z" "+00:00" s) = false
  /\ (has_char "Z" s = false -> str_replace "Z" "+00:00" s = s).
Proof.
  induction s as [|c s (IH1 & IH2)]; [split; reflexivity|].
  cbn [str_replace has_char]. destruct (Ascii.eqb c "Z") eqn:E.
  - split.
    + rewrite has_char_app, IH1. reflexivity.
    + cbn. discriminate.
  - split.
    + cbn [has_char]. rewrite E. exact IH1.
    + cbn [orb]. intros H. rewrite (IH2 H). reflexivity.
Qed.

Lemma no_Z_reaches_parser_witness :
  has_char "Z" "2030-01-01T10:00:00+00:00" = false
  /\ str_replace "Z" "+00:00" "2030-01-01T10:00:00+00:00" = "2030-01-01T10:00:00+00:00".
Proof.
  split; [reflexivity|].
  exact (proj2 (no_Z_reaches_parser "2030-01-01T10:00:00+00:00") eq_refl).
Defined.

(** * Properties of the health check *)

Lemma str_prefix_length (n : nat) (s : string) :
  str_len (Health.str_prefix n s) = Nat.min n (str_len s).
Proof.
  revert n. induction s as [|c s IH]; intros n; cbn [Health.str_prefix str_len].
  - lia.
  - destruct (is_continuation c) eqn:C.
    + cbn [str_len]. rewrite C. apply IH.
    + destruct n as [|n]; [reflexivity|].
      cbn [str_len]. rewrite C, IH. lia.
Qed.

Lemma str_prefix_all (n : nat) (s : string) :
  (str_len s <= n)%nat -> Health.str_prefix n s = s.
Proof.
  revert n. induction s as [|c s IH]; intros n; cbn [Health.str_prefix str_len];
    [reflexivity|].
  destruct (is_continuation c).
  - intros H. rewrite IH by exact H. reflexivity.
  - destruct n as [|n]; intros H; [lia|]. rewrite IH by lia. reflexivity.
Qed.

Lemma str_prefix_is_prefix (n : nat) (s : string) :
  exists rest, s = (Health.str_prefix n s ++ rest)%string.
Proof.
  revert n. induction s as [|c s IH]; intros n; cbn [Health.str_prefix].
  - exists "". reflexivity.
  - destruct (is_continuation c).
    + destruct (IH n) as [rest E]. exists rest. cbn [String.append].
      rewrite <- E. reflexivity.
    + destruct n as [|n].
      * exists (String c s). reflexivity.
      * destruct (IH n) as [rest E]. exists rest. cbn [String.append].
        rewrite <- E. reflexivity.
Qed.

(** X13: The health check reports at most 10 collections: the first 10 the
    database lists, in its order, and all of them when it has no more; none
    when there is no database or the listing fails. *)
Theorem health_collections_bounded
        (db : option Health.listing) (getenv : string -> option string) :
  (List.length (Health.collections (Health.test_database db getenv)) <= 10)%nat
  /\ (forall names,
         db = Some (Health.Listed names) ->
         names = (Health.collections (Health.test_database db getenv)
                  ++ skipn 10 names)%list
         /\ ((List.length names <= 10)%nat ->
             Health.collections (Health.test_database db getenv) = names))
  /\ ((forall names, db <> Some (Health.Listed names)) ->
      Health.collections (Health.test_database db getenv) = []).
Proof.
  split; [|split].
  - destruct db as [[names | message]|]; cbn; try lia.
    change (List.length (firstn 10 names) <= 10)%nat. apply firstn_le_length.
  - intros names ->. cbn [Health.test_database Health.collections
                           Health.set_collections Health.set_database].
    split.
    + symmetry. apply firstn_skipn.
    + intros H. apply firstn_all2. exact H.
  - intros H. destruct db as [[names | message]|]; try reflexivity.
    exfalso. exact (H names eq_refl).
Qed.

Lemma health_collections_bounded_witness :
  Health.collections
    (Health.test_database (Some (Health.Listed Sample2.twelve_names)) Sample2.getenv)
  = ["c01"; "c02"; "c03"; "c04"; "c05"; "c06"; "c07"; "c08"; "c09"; "c10"]
  /\ Sample2.twelve_names
     = (Health.collections
          (Health.test_database (Some (Health.Listed Sample2.twelve_names))
                                Sample2.getenv)
        ++ skipn 10 Sample2.twelve_names)%list.
Proof.
  split; [reflexivity|].
  exact (proj1 (proj1 (proj2 (health_collections_bounded
                                (Some (Health.Listed Sample2.twelve_names))
                                Sample2.getenv))
                      Sample2.twelve_names eq_refl)).
Defined.

(** X14: When the listing fails the check still answers: it reports the
    connection as made, no collection, and the failure with at most the
    first 50 characters of its text. *)
Theorem health_listing_failure
        (message : string) (getenv : string -> option string) :
  let r := Health.test_database (Some (Health.Failed message)) getenv in
  Health.backend r = "✅ Running"
  /\ Health.connection_status r = "Connected"
  /\ Health.collections r = []
  /\ exists quoted,
      Health.database r = ("⚠️  Connected but Error: " ++ quoted)%string
      /\ str_len quoted = Nat.min 50 (str_len message)
      /\ (exists rest, message = (quoted ++ rest)%string)
      /\ ((str_len message <= 50)%nat -> quoted = message).
Proof.
  cbn zeta. split; [reflexivity|]. split; [reflexivity|]. split; [reflexivity|].
  exists (Health.str_prefix 50 message).
  split; [reflexivity|]. split; [apply str_prefix_length|].
  split; [apply str_prefix_is_prefix | apply str_prefix_all].
Qed.

(** An error text of 69 characters, two of them accented: the first 50
    characters are quoted, which are 51 bytes. *)
Example health_accented_failure :
  Health.database
    (Health.test_database
       (Some (Health.Failed
          "La conexión con el servidor de la base de datos falló: tiempo agotado"))
       Sample2.getenv)
  = "⚠️  Connected but Error: La conexión con el servidor de la base de datos fa"
  /\ str_len "La conexión con el servidor de la base de datos fa" = 50%nat
  /\ String.length "La conexión con el servidor de la base de datos fa" = 51%nat.
Proof. repeat split. Qed.



(** * Discounts of zero *)

Lemma mul_one (mx : positive) (ex : Z) :
  bounded PyFloat.prec PyFloat.emax mx ex = true ->
  PyFloat.mul (S754_finite false mx ex) (PyFloat.of_int 1) = S754_finite false mx ex.
Proof.
  intros B. unfold bounded in B. apply andb_prop in B. destruct B as [C L].
  unfold canonical_mantissa in C. apply Z.eqb_eq in C. apply Z.leb_le in L.
  rewrite FloatFacts.of_int_1. unfold PyFloat.mul, SFmul. cbn [xorb].
  rewrite Pos.mul_comm. cbn [Pos.mul].
  unfold binary_round_aux, shr_fexp. cbn [Zdigits2 digits2_pos].
  rewrite !Pos2Z.inj_succ.
  match goal with
  | |- context [shr ?r ?e ?n] =>
      let E := fresh "E" in
      assert (E : n = 52)
        by (unfold fexp, emin, PyFloat.prec, PyFloat.emax in *;
            revert C; generalize (Z.pos (digits2_pos mx)); intros; lia);
      rewrite E; clear E
  end.
  cbn [shr iter_pos shr_1 shr_record_of_loc shr_m loc_of_shr_record
       round_nearest_even Zdigits2 orb].
  match goal with
  | |- context [shr ?r ?e ?n] =>
      let E := fresh "E" in
      assert (E : n = 0)
        by (unfold fexp, emin, PyFloat.prec, PyFloat.emax in *;
            revert C; generalize (Z.pos (digits2_pos mx)); intros; lia);
      rewrite E; clear E
  end.
  cbn [shr shr_record_of_loc shr_m].
  replace (ex + -52 + 52) with ex by lia.
  replace (ex <=? PyFloat.emax - PyFloat.prec) with true by lia.
  reflexivity.
Qed.

Lemma percent_factor_0 : PyFloat.percent_factor 0 = PyFloat.of_int 1.
Proof. vm_compute. reflexivity. Qed.

(** X16: A discount of nothing changes nothing: for a well-formed non-free
    submission, a fixed offer of [0.0] (or [-0.0]), and a percent offer of
    0 without a fixed offer, give the original price as the final
    price. *)
Theorem zero_discount_keeps_price (p : DrumkitCreate.t) :
  DrumkitCreate.valid p = true ->
  DrumkitCreate.is_free p = false ->
  (forall s, DrumkitCreate.offer_fixed p = Some (S754_zero s) ->
             pricing p = Ret (DrumkitCreate.price_original p,
                              Some (S754_zero s), DrumkitCreate.offer_percent p))
  /\ (DrumkitCreate.offer_fixed p = None ->
      DrumkitCreate.offer_percent p = Some 0 ->
      pricing p = Ret (DrumkitCreate.price_original p, None, Some 0)).
Proof.
  intros V F. unfold DrumkitCreate.valid in V. split_andb.
  destruct (FloatFacts.price_range_inv (DrumkitCreate.price_original p))
    as (m & e & Ex & He); try assumption.
  split.
  - intros s E. unfold pricing, discounted. rewrite F, E, Ex.
    replace (PyFloat.geb (S754_zero s) (S754_finite false m e)) with false
      by reflexivity.
    destruct (DrumkitCreate.offer_percent p) as [n|].
    + cbn [opt_all] in *. split_andb.
      replace (n >? 90) with false by lia. reflexivity.
    + reflexivity.
  - intros E1 E2. unfold pricing, discounted. rewrite F, E1, E2.
    replace (0 >? 90) with false by reflexivity.
    change (PyFloat.sub (PyFloat.of_int 1) (PyFloat.int_truediv 0 100))
      with (PyFloat.percent_factor 0).
    rewrite percent_factor_0, Ex, mul_one.
    + reflexivity.
    + rewrite Ex in *. assumption.
Qed.

Lemma zero_discount_keeps_price_witness :
  DrumkitCreate.valid Sample2.zero_percent = true
  /\ DrumkitCreate.is_free Sample2.zero_percent = false
  /\ pricing Sample2.zero_percent = Ret (PyFloat.of_int 100, None, Some 0).
Proof.
  assert (V : DrumkitCreate.valid Sample2.zero_percent = true)
    by (vm_compute; reflexivity).
  split; [exact V|]. split; [reflexivity|].
  exact (proj2 (zero_discount_keeps_price Sample2.zero_percent V eq_refl)
               eq_refl eq_refl).
Defined.

(** * The order of binary64 values and rounding *)

Module FloatOrder.
Import PyFloat.

Lemma pow2_pos (n : Z) : 0 <= n -> 0 < 2 ^ n.
Proof. intros H. apply Z.pow_pos_nonneg; lia. Qed.

Lemma pow2_53 : 2 ^ 53 = 9007199254740992.
Proof. reflexivity. Qed.

Lemma pow2_52 : 2 ^ 52 = 4503599627370496.
Proof. reflexivity. Qed.

(** A canonical mantissa, in arithmetic terms. *)
Lemma canonical_canon (m : positive) (e : Z) :
  canonical_mantissa prec emax m e = true -> canon (Zpos m) e.
Proof.
  intros C. destruct (FloatFacts.canonical_inv m e C) as (H1 & H2 & H3).
  unfold emin, prec, emax in *. change (2 ^ 53) with 9007199254740992 in H2.
  change (2 ^ (53 - 1)) with 4503599627370496 in H3.
  unfold canon. repeat split; lia.
Qed.

(** Among canonical pairs, a larger exponent means a larger value. *)
Lemma canon_exponent_le (a ea b eb : Z) :
  canon a ea -> canon b eb -> scaled a ea <= scaled b eb -> ea <= eb.
Proof.
  unfold canon, scaled. intros (A1 & A2 & A3) (B1 & B2 & _) H.
  destruct (Z_le_gt_dec ea eb) as [L|G]; [exact L | exfalso].
  assert (P : 0 < 2 ^ (eb + 1074)) by (apply pow2_pos; lia).
  assert (E : 2 ^ (ea + 1074) = 2 ^ (ea - eb) * 2 ^ (eb + 1074)).
  { rewrite <- Z.pow_add_r by lia. f_equal. lia. }
  assert (Q : 2 ^ 1 <= 2 ^ (ea - eb)) by (apply Z.pow_le_mono_r; lia).
  change (2 ^ 1) with 2 in Q. rewrite E in H.
  specialize (A3 ltac:(lia)).
  assert (X : 2 * 2 ^ (eb + 1074) <= 2 ^ (ea - eb) * 2 ^ (eb + 1074))
    by (apply Z.mul_le_mono_nonneg_r; lia).
  nia.
Qed.

Lemma canon_le_compare (a b : positive) (ea eb : Z) :
  canon (Zpos a) ea -> canon (Zpos b) eb ->
  scaled (Zpos a) ea <= scaled (Zpos b) eb ->
  leb (S754_finite false a ea) (S754_finite false b eb) = true.
Proof.
  intros A B H. pose proof (canon_exponent_le _ _ _ _ A B H) as L.
  unfold leb, SFleb, SFcompare.
  destruct (Z.compare_spec ea eb) as [E|E|E]; [|reflexivity|lia].
  subst eb. unfold scaled in H.
  assert (P : 0 < 2 ^ (ea + 1074)) by (apply pow2_pos; destruct A; lia).
  assert (Le : (a <= b)%positive).
  { apply Pos2Z.pos_le_pos. nia. }
  change (Pos.compare_cont Eq a b) with (a ?= b)%positive.
  unfold Pos.le in Le. destruct (a ?= b)%positive; try reflexivity. congruence.
Qed.

(** The values of the format lie on the grid of every canonical pair
    below them: what is above [a] on the grid of [ea] is at least one step
    above it. *)
Lemma canon_next (a ea b eb : Z) :
  canon a ea -> canon b eb ->
  scaled a ea < scaled b eb -> scaled (a + 1) ea <= scaled b eb.
Proof.
  intros A B H.
  assert (L : ea <= eb) by (apply (canon_exponent_le a ea b eb A B); lia).
  unfold canon, scaled in *. destruct A as (A1 & A2 & A3), B as (B1 & B2 & B3).
  assert (P : 0 < 2 ^ (ea + 1074)) by (apply pow2_pos; lia).
  assert (E : 2 ^ (eb + 1074) = 2 ^ (eb - ea) * 2 ^ (ea + 1074)).
  { rewrite <- Z.pow_add_r by lia. f_equal. lia. }
  rewrite E in *. 
  assert (Q : 0 < 2 ^ (eb - ea)) by (apply pow2_pos; lia).
  assert (X : a < b * 2 ^ (eb - ea)) by nia.
  nia.
Qed.

End FloatOrder.

Module Rounding.
Import PyFloat.

Lemma iter_pos_nat {A : Type} (f : A -> A) (p : positive) (x : A) :
  iter_pos f p x = Nat.iter (Pos.to_nat p) f x.
Proof.
  revert x. induction p as [p IH | p IH |]; intros x; cbn [iter_pos].
  - rewrite !IH.
    replace (Pos.to_nat p~1) with (Pos.to_nat p + Pos.to_nat p + 1)%nat by lia.
    rewrite !Nat.iter_add. reflexivity.
  - rewrite !IH.
    replace (Pos.to_nat p~0) with (Pos.to_nat p + Pos.to_nat p)%nat by lia.
    rewrite Nat.iter_add. reflexivity.
  - reflexivity.
Qed.

Lemma shr_1_exact (r : shr_record) :
  0 <= shr_m r -> shr_r r = false -> shr_s r = false ->
  shr_m r = shr_m (shr_1 r) * 2 ->
  shr_r (shr_1 r) = false /\ shr_s (shr_1 r) = false.
Proof.
  destruct r as [m [] []]; cbn [shr_m shr_r shr_s]; try discriminate.
  intros Hm _ _.
  destruct m as [|[p|p|]|p]; cbn; intros H; try lia; split; reflexivity.
Qed.

(** [n] shifts to the right divide the mantissa by [2^n], and lose nothing
    when the mantissa is a multiple of [2^n]. *)
Lemma shr_iter (n : nat) (r : shr_record) :
  0 <= shr_m r ->
  let r' := Nat.iter n shr_1 r in
  0 <= shr_m r'
  /\ shr_m r' = shr_m r / 2 ^ Z.of_nat n
  /\ (shr_r r = false -> shr_s r = false ->
      shr_m r = shr_m r' * 2 ^ Z.of_nat n ->
      shr_r r' = false /\ shr_s r' = false).
Proof.
  intros Hr. cbn zeta. induction n as [|n (I1 & I2 & I3)].
  - change (Nat.iter 0 shr_1 r) with r.
    change (2 ^ Z.of_nat 0) with 1. rewrite Z.div_1_r.
    repeat split; auto.
  - change (Nat.iter (S n) shr_1 r) with (shr_1 (Nat.iter n shr_1 r)).
    set (r' := Nat.iter n shr_1 r) in *.
    assert (P : 0 < 2 ^ Z.of_nat n) by (apply Z.pow_pos_nonneg; lia).
    assert (E : 2 ^ Z.of_nat (S n) = 2 ^ Z.of_nat n * 2).
    { rewrite Nat2Z.inj_succ, Z.pow_succ_r by lia. ring. }
    assert (M : shr_m (shr_1 r') = shr_m r' / 2)
      by (apply FloatFacts.shr_1_m; exact I1).
    split; [rewrite M; apply Z.div_pos; lia|].
    split; [rewrite M, I2, E, Z.div_div by lia; reflexivity|].
    intros F1 F2 X. rewrite E in X.
    assert (Y : shr_m r' = shr_m (shr_1 r') * 2).
    { rewrite I2, X.
      replace (shr_m (shr_1 r') * (2 ^ Z.of_nat n * 2))
        with (shr_m (shr_1 r') * 2 * 2 ^ Z.of_nat n) by ring.
      rewrite Z.div_mul by lia. reflexivity. }
    apply shr_1_exact; try assumption.
    + apply I3; try assumption. rewrite Y in *. rewrite X. ring.
    + apply I3; try assumption. rewrite Y in *. rewrite X. ring.
Qed.

Lemma shr_pos (p : positive) (m : Z) :
  0 <= m ->
  let r' := iter_pos shr_1 p (shr_record_of_loc m loc_Exact) in
  shr_m r' = m / 2 ^ Zpos p
  /\ (m = shr_m r' * 2 ^ Zpos p -> loc_of_shr_record r' = loc_Exact).
Proof.
  intros Hm. cbn zeta. rewrite iter_pos_nat.
  destruct (shr_iter (Pos.to_nat p) (shr_record_of_loc m loc_Exact) Hm)
    as (_ & I2 & I3).
  rewrite positive_nat_Z in *. cbn [shr_record_of_loc shr_m shr_r shr_s] in *.
  split; [exact I2|].
  intros X. destruct (I3 eq_refl eq_refl X) as [F1 F2].
  destruct (Nat.iter (Pos.to_nat p) shr_1 _) as [m' r' s'].
  cbn [shr_r shr_s] in *. subst. reflexivity.
Qed.

Lemma round_nearest_even_cases (m : Z) (l : location) :
  round_nearest_even m l = m
  \/ (round_nearest_even m l = m + 1 /\ l <> loc_Exact).
Proof.
  destruct l as [|[]]; cbn [round_nearest_even]; auto.
  - destruct (Z.even m); [auto|]. right. split; [reflexivity | discriminate].
  - right. split; [reflexivity | discriminate].
Qed.

End Rounding.

Module RoundingOrder.
Import PyFloat.

Lemma digits_le (m : positive) (k : Z) :
  0 <= k -> Zpos m < 2 ^ k -> Zpos (digits2_pos m) <= k.
Proof.
  intros Hk H. pose proof (FloatFacts.digits2_pos_bounds m) as [B _].
  assert (L : 2 ^ (Zpos (digits2_pos m) - 1) < 2 ^ k) by lia.
  apply Z.pow_lt_mono_r_iff in L; lia.
Qed.

Lemma digits_gt (m : positive) (k : Z) :
  0 <= k -> 2 ^ k <= Zpos m -> k < Zpos (digits2_pos m).
Proof.
  intros Hk H. pose proof (FloatFacts.digits2_pos_bounds m) as [_ B].
  assert (L : 2 ^ k < 2 ^ Zpos (digits2_pos m)) by lia.
  apply Z.pow_lt_mono_r_iff in L; lia.
Qed.

(** The first shift of [binary_round_aux], on a mantissa that is not
    already finer than its canonical exponent asks: the result is
    canonical, not above the exact value, and below it only when the shift
    lost bits. *)
Lemma first_shift (m : positive) (e : Z) :
  -1074 <= e ->
  e <= fexp prec emax (Zpos (digits2_pos m) + e) ->
  exists r e1,
    shr_fexp prec emax (Zpos m) e loc_Exact = (r, e1)
    /\ canon (shr_m r) e1
    /\ scaled (shr_m r) e1 <= scaled (Zpos m) e
    /\ (loc_of_shr_record r <> loc_Exact -> scaled (shr_m r) e1 < scaled (Zpos m) e).
Proof.
  intros He Hn. unfold shr_fexp, shr. cbn [Zdigits2].
  pose proof (FloatFacts.digits2_pos_bounds m) as [B1 B2].
  set (d := Zpos (digits2_pos m)) in *.
  assert (Dpos : 0 < d) by (unfold d; lia).
  destruct (fexp prec emax (d + e) - e) as [|p|p] eqn:En.
  - eexists _, _. split; [reflexivity|]. cbn [shr_record_of_loc shr_m loc_of_shr_record].
    unfold fexp, emin, prec, emax in *.
    assert (D53 : d <= 53) by lia.
    assert (U : 2 ^ d <= 2 ^ 53) by (apply Z.pow_le_mono_r; lia).
    rewrite FloatOrder.pow2_53 in U.
    split; [|split; [lia | intros X; congruence]].
    unfold canon. split; [lia|]. split; [lia|].
    intros G. replace d with 53 in B1 by lia.
    change (2 ^ (53 - 1)) with 4503599627370496 in B1. exact B1.
  - destruct (Rounding.shr_pos p (Zpos m)) as [V X]; [lia|].
    set (r := iter_pos shr_1 p (shr_record_of_loc (Zpos m) loc_Exact)) in *.
    exists r, (e + Zpos p). split; [reflexivity|].
    assert (Hp : Zpos p = d - 53)
      by (unfold fexp, emin, prec, emax in *; lia).
    assert (P : 0 < 2 ^ Zpos p) by (apply FloatOrder.pow2_pos; lia).
    assert (Q : 0 < 2 ^ (e + 1074)) by (apply FloatOrder.pow2_pos; lia).
    assert (E1 : 2 ^ (d - 1) = 4503599627370496 * 2 ^ Zpos p).
    { rewrite <- FloatOrder.pow2_52, <- Z.pow_add_r by lia. f_equal. lia. }
    assert (E2 : 2 ^ d = 9007199254740992 * 2 ^ Zpos p).
    { rewrite <- FloatOrder.pow2_53, <- Z.pow_add_r by lia. f_equal. lia. }
    assert (Lo : 4503599627370496 <= shr_m r).
    { rewrite V. apply Z.div_le_lower_bound; lia. }
    assert (Hi : shr_m r < 9007199254740992).
    { rewrite V. apply Z.div_lt_upper_bound; lia. }
    assert (Fl : shr_m r * 2 ^ Zpos p <= Zpos m).
    { rewrite V, Z.mul_comm. apply Z.mul_div_le. lia. }
    assert (S : scaled (shr_m r) (e + Zpos p)
                = shr_m r * 2 ^ Zpos p * 2 ^ (e + 1074)).
    { unfold scaled. replace (e + Zpos p + 1074) with (Zpos p + (e + 1074)) by lia.
      rewrite Z.pow_add_r by lia. ring. }
    split; [unfold canon; lia|]. rewrite S. unfold scaled.
    split; [apply Z.mul_le_mono_nonneg_r; lia|].
    intros NE. apply Z.mul_lt_mono_pos_r; [lia|].
    destruct (Z.eq_dec (Zpos m) (shr_m r * 2 ^ Zpos p)) as [Eq|Ne]; [|lia].
    exfalso. apply NE. apply X. exact Eq.
  - exfalso. lia.
Qed.

(** The second shift, after rounding: the mantissa is canonical, or has
    just reached [2^53]; the pair is made canonical without a change of
    value. *)
Lemma second_shift (m2 : positive) (e1 : Z) :
  -1074 <= e1 ->
  Zpos m2 <= 9007199254740992 ->
  (-1074 < e1 -> 4503599627370496 <= Zpos m2) ->
  exists r e3,
    shr_fexp prec emax (Zpos m2) e1 loc_Exact = (r, e3)
    /\ canon (shr_m r) e3
    /\ scaled (shr_m r) e3 = scaled (Zpos m2) e1.
Proof.
  intros He Hi Lo.
  destruct (Z.eq_dec (Zpos m2) 9007199254740992) as [E|NE].
  - injection E as ->. unfold shr_fexp, shr. cbn [Zdigits2].
    change (Zpos (digits2_pos 9007199254740992)) with 54.
    replace (fexp prec emax (54 + e1) - e1) with 1
      by (unfold fexp, emin, prec, emax; lia).
    eexists _, _. split; [reflexivity|].
    cbn [iter_pos shr_1 shr_record_of_loc shr_m]. split.
    + unfold canon. lia.
    + unfold scaled. replace (e1 + 1 + 1074) with (Z.succ (e1 + 1074)) by lia.
      rewrite Z.pow_succ_r by lia. ring.
  - assert (H : Zpos m2 < 2 ^ 53) by (rewrite FloatOrder.pow2_53; lia).
    pose proof (digits_le m2 53 ltac:(lia) H) as D.
    assert (F : fexp prec emax (Zpos (digits2_pos m2) + e1) - e1 = 0).
    { unfold fexp, emin, prec, emax.
      destruct (Z.eq_dec e1 (-1074)) as [->|G]; [lia|].
      assert (L : 2 ^ 52 <= Zpos m2) by (rewrite FloatOrder.pow2_52; apply Lo; lia).
      pose proof (digits_gt m2 52 ltac:(lia) L). lia. }
    unfold shr_fexp, shr. cbn [Zdigits2]. rewrite F.
    eexists _, _. split; [reflexivity|]. cbn [shr_record_of_loc shr_m].
    split; [|reflexivity]. unfold canon. split; [lia|]. split; [lia|]. exact Lo.
Qed.

(** Rounding is monotone against the values of the format: the rounded
    value of [m * 2^e] is not above a binary64 number that [m * 2^e] is not
    above. *)
Lemma round_le (m mx : positive) (e ex : Z) :
  -1074 <= e ->
  e <= fexp prec emax (Zpos (digits2_pos m) + e) ->
  bounded prec emax mx ex = true ->
  scaled (Zpos m) e <= scaled (Zpos mx) ex ->
  leb (binary_round_aux prec emax false (Zpos m) e loc_Exact)
      (S754_finite false mx ex) = true.
Proof.
  intros He Hn B H.
  unfold bounded in B. apply andb_prop in B. destruct B as [C Le].
  apply FloatOrder.canonical_canon in C. apply Z.leb_le in Le.
  destruct (first_shift m e He Hn) as (r & e1 & S1 & C1 & V1 & X1).
  unfold binary_round_aux. rewrite S1.
  assert (R : exists m2 : positive,
             round_nearest_even (shr_m r) (loc_of_shr_record r) = Zpos m2
             /\ Zpos m2 <= 9007199254740992
             /\ (-1074 < e1 -> 4503599627370496 <= Zpos m2)
             /\ scaled (Zpos m2) e1 <= scaled (Zpos mx) ex).
  { destruct C1 as (A1 & A2 & A3).
    destruct (Rounding.round_nearest_even_cases (shr_m r) (loc_of_shr_record r))
      as [-> | [-> NE]].
    - destruct (shr_m r) as [|q|q] eqn:Eq; try lia.
      exists q. repeat split; lia.
    - assert (N : scaled (shr_m r + 1) e1 <= scaled (Zpos mx) ex).
      { apply FloatOrder.canon_next; [unfold canon; auto | exact C | ].
        specialize (X1 NE). lia. }
      destruct (shr_m r + 1) as [|q|q] eqn:Eq; try lia.
      exists q. split; [reflexivity|]. split; [lia|]. split; [|exact N].
      intros G. specialize (A3 G). lia. }
  destruct R as (m2 & -> & Hi & Lo & V2).
  destruct C1 as (A1 & _).
  destruct (second_shift m2 e1 A1 Hi Lo) as (r3 & e3 & S3 & C3 & V3).
  rewrite S3.
  assert (L3 : e3 <= ex).
  { apply (FloatOrder.canon_exponent_le (shr_m r3) e3 (Zpos mx) ex C3 C). lia. }
  destruct (shr_m r3) as [|m3|m3] eqn:E3; try (destruct C3 as (_ & ? & _); lia).
  replace (e3 <=? emax - prec) with true by (unfold emax, prec in *; lia).
  apply FloatOrder.canon_le_compare; [exact C3 | exact C | lia].
Qed.

End RoundingOrder.

Module PriceOrder.
Import PyFloat.

Lemma leb_refl_finite (m : positive) (e : Z) :
  leb (S754_finite false m e) (S754_finite false m e) = true.
Proof.
  unfold leb, SFleb, SFcompare. rewrite Z.compare_refl.
  change (Pos.compare_cont Eq m m) with (m ?= m)%positive.
  rewrite Pos.compare_refl. reflexivity.
Qed.

Lemma mul_le (mx mc : positive) (ex ec : Z) :
  bounded prec emax mx ex = true ->
  -52 <= ex -> -60 <= ec <= 0 ->
  4503599627370496 <= Zpos mc -> Zpos mc <= 2 ^ (- ec) ->
  leb (mul (S754_finite false mx ex) (S754_finite false mc ec))
      (S754_finite false mx ex) = true.
Proof.
  intros B Hx Hc Lo Hi. unfold mul, SFmul. cbn [xorb].
  apply RoundingOrder.round_le; try assumption; try lia.
  - assert (L : 2 ^ 52 <= Zpos (mx * mc)).
    { rewrite FloatOrder.pow2_52, Pos2Z.inj_mul. nia. }
    pose proof (RoundingOrder.digits_gt (mx * mc) 52 ltac:(lia) L).
    unfold fexp, emin, prec, emax. lia.
  - unfold scaled. rewrite Pos2Z.inj_mul.
    assert (P : 0 < 2 ^ (ex + ec + 1074)) by (apply FloatOrder.pow2_pos; lia).
    replace (ex + 1074) with (- ec + (ex + ec + 1074)) by lia.
    rewrite (Z.pow_add_r 2 (- ec) (ex + ec + 1074)) by lia.
    assert (X : Zpos mx * Zpos mc <= Zpos mx * 2 ^ (- ec))
      by (apply Z.mul_le_mono_nonneg_l; lia).
    rewrite Z.mul_assoc. apply Z.mul_le_mono_nonneg_r; lia.
Qed.

Lemma digits_iter_xO (q k : positive) :
  Zpos (digits2_pos (Pos.iter xO q k)) = Zpos (digits2_pos q) + Zpos k.
Proof.
  induction k as [|k IH] using Pos.peano_ind.
  - cbn. lia.
  - rewrite Pos.iter_succ. cbn [digits2_pos]. rewrite Pos2Z.inj_succ, IH. lia.
Qed.

(** What [binary_round] hands to [binary_round_aux]: the same value, at an
    exponent that is not above the canonical one. *)
Lemma shl_align_canonical (q : positive) (e : Z) :
  -1074 <= e ->
  exists mz ez,
    shl_align q e (fexp prec emax (Zpos (digits2_pos q) + e)) = (mz, ez)
    /\ -1074 <= ez
    /\ ez <= fexp prec emax (Zpos (digits2_pos mz) + ez)
    /\ scaled (Zpos mz) ez = scaled (Zpos q) e.
Proof.
  intros He. unfold shl_align.
  destruct (fexp prec emax (Zpos (digits2_pos q) + e) - e) as [|k|k] eqn:E.
  - exists q, e. repeat split; lia.
  - exists q, e. repeat split; lia.
  - eexists _, _. split; [reflexivity|].
    set (f := fexp prec emax (Zpos (digits2_pos q) + e)) in *.
    assert (F : -1074 <= f) by (unfold f, fexp, emin, prec, emax; lia).
    split; [exact F|]. split.
    + rewrite digits_iter_xO.
      replace (Zpos (digits2_pos q) + Zpos k + f) with (Zpos (digits2_pos q) + e) by lia.
      fold f. lia.
    + unfold scaled. rewrite FloatFacts.pos_iter_xO.
      replace (e + 1074) with (Zpos k + (f + 1074)) by lia.
      rewrite (Z.pow_add_r 2 (Zpos k) (f + 1074)) by lia. ring.
Qed.

Lemma sub_le (mx my : positive) (ex ey : Z) :
  bounded prec emax mx ex = true ->
  bounded prec emax my ey = true ->
  ltb (S754_finite false my ey) (S754_finite false mx ex) = true ->
  leb (sub (S754_finite false mx ex) (S754_finite false my ey))
      (S754_finite false mx ex) = true.
Proof.
  intros Bx By Hlt.
  pose proof (FloatFacts.bounded_inv _ _ Bx) as Cx.
  pose proof (FloatFacts.bounded_inv _ _ By) as Cy.
  destruct (FloatFacts.canonical_inv mx ex Cx) as (Hx & _).
  destruct (FloatFacts.canonical_inv my ey Cy) as (Hy & _).
  unfold emin, prec, emax in Hx, Hy.
  assert (H : ey < ex \/ (ey = ex /\ (my < mx)%positive)).
  { unfold ltb, SFltb, SFcompare in Hlt.
    change (Pos.compare_cont Eq my mx) with (my ?= mx)%positive in Hlt.
    revert Hlt. destruct (Z.compare_spec ey ex) as [E|E|E]; intros Hlt;
      try discriminate Hlt; [right|left; lia].
    split; [lia|]. unfold Pos.lt.
    revert Hlt. destruct (my ?= mx)%positive; cbn; congruence. }
  pose proof (FloatFacts.aligned_lt mx my ex ey Cx Cy H) as L.
  unfold sub, SFsub. cbn [cond_Zopp].
  set (ez := Z.min ex ey) in *.
  pose proof (FloatFacts.shl_align_value mx ex ez ltac:(lia)) as Vx.
  set (a := Zpos (fst (shl_align mx ex ez))) in *.
  set (b := Zpos (fst (shl_align my ey ez))) in *.
  assert (Bpos : 0 < b) by (unfold b; lia).
  destruct (a - b) as [|q|q] eqn:D; try lia.
  cbn [binary_normalize]. unfold binary_round.
  destruct (shl_align_canonical q ez ltac:(lia)) as (mz & ez' & -> & E1 & E2 & V).
  apply RoundingOrder.round_le; try assumption.
  rewrite V. unfold scaled.
  assert (P : 0 < 2 ^ (ez + 1074)) by (apply FloatOrder.pow2_pos; lia).
  replace (ex + 1074) with (ex - ez + (ez + 1074)) by lia.
  rewrite (Z.pow_add_r 2 (ex - ez) (ez + 1074)), Z.mul_assoc, <- Vx by lia.
  apply Z.mul_le_mono_nonneg_r; lia.
Qed.

Lemma percent_factor_le_one_table :
  forallb (fun k => factor_at_most_one (percent_factor (Z.of_nat k))) (seq 0 91) = true.
Proof. vm_compute. reflexivity. Qed.

Lemma percent_factor_le_one (n : Z) :
  0 <= n <= 90 ->
  exists m e, percent_factor n = S754_finite false m e
              /\ -60 <= e <= 0 /\ 4503599627370496 <= Zpos m /\ Zpos m <= 2 ^ (- e).
Proof.
  intros Hn. pose proof percent_factor_le_one_table as T.
  rewrite forallb_forall in T. specialize (T (Z.to_nat n)).
  rewrite Z2Nat.id in T by lia.
  specialize (T ltac:(apply in_seq; lia)). unfold factor_at_most_one in T.
  destruct (percent_factor n) as [s|s| |[] m e]; try discriminate T.
  apply andb_prop in T. destruct T as [T T4].
  apply andb_prop in T. destruct T as [T T3].
  apply andb_prop in T. destruct T as [T1 T2].
  exists m, e. split; [reflexivity|]. lia.
Qed.

End PriceOrder.

(** X17: No discount raises the price, and none makes it negative: for a
    well-formed body that passes the offer checks, free or not, the final
    price lies between [0.0] and the original price, and so does the price
    of the stored record. *)
Theorem final_price_within_bounds
        (fromisoformat : string -> option datetime) (clock : datetime)
        (fresh_id : store -> string -> Drumkit.t -> string)
        (p : DrumkitCreate.t) (fp : float) (o_f : option float) (o_p : option Z) :
  DrumkitCreate.valid p = true ->
  pricing p = Ret (fp, o_f, o_p) ->
  (PyFloat.geb fp PyFloat.zero = true
   /\ PyFloat.leb fp (DrumkitCreate.price_original p) = true)
  /\ forall st resp st',
      create_drumkit fromisoformat clock fresh_id p st = (Ret resp, st') ->
      exists doc, st' = (st ++ [("drumkit", doc)])%list
                  /\ PyFloat.geb (Drumkit.price_final doc) PyFloat.zero = true
                  /\ PyFloat.leb (Drumkit.price_final doc) (Drumkit.price_original doc)
                     = true.
Proof.
  intros V P.
  assert (G : PyFloat.geb fp PyFloat.zero = true
              /\ PyFloat.leb fp (DrumkitCreate.price_original p) = true).
  { pose proof V as V'. unfold DrumkitCreate.valid in V'. split_andb.
    destruct (FloatFacts.price_range_inv (DrumkitCreate.price_original p))
      as (m & e & Ex & He); try assumption.
    assert (Bx : bounded PyFloat.prec PyFloat.emax m e = true).
    { match goal with
      | H : PyFloat.valid (DrumkitCreate.price_original p) = true |- _ =>
          rewrite Ex in H; exact H
      end. }
    destruct (DrumkitCreate.is_free p) eqn:F.
    - destruct (pricing_inv _ _ _ _ P) as [(_ & -> & _) | (F' & _)]; [|congruence].
      rewrite Ex. split; reflexivity.
    - pose proof (discounted_pos p fp o_f o_p V F P) as D.
      destruct (pricing_inv _ _ _ _ P) as [(F' & _) | (_ & Ef & Ep & -> & Hf & Hp)];
        [congruence|].
      rewrite (FloatFacts.is_pos_max _ D).
      split; [apply FloatFacts.is_pos_geb; exact D|].
      unfold discounted. rewrite Ex in *. destruct o_f as [f|].
      + specialize (Hf f eq_refl). rewrite <- Ef in *. cbn [opt_all] in *. split_andb.
        destruct f as [s|[]| |[] my ey];
          try match goal with
              | H : PyFloat.geb _ PyFloat.zero = true |- _ => discriminate H
              end;
          try discriminate Hf.
        * apply PriceOrder.leb_refl_finite.
        * apply PriceOrder.sub_le; try assumption.
          apply FloatFacts.not_geb_ltb; [reflexivity | reflexivity | exact Hf].
      + destruct o_p as [n|]; [|apply PriceOrder.leb_refl_finite].
        rewrite <- Ep in *. cbn [opt_all] in *. split_andb.
        change (PyFloat.sub (PyFloat.of_int 1) (PyFloat.int_truediv n 100))
          with (PyFloat.percent_factor n).
        destruct (PriceOrder.percent_factor_le_one n) as (mc & ec & -> & Hc & Lo & Hi);
          [lia|].
        apply PriceOrder.mul_le; assumption. }
  split; [exact G|].
  intros st resp st' H.
  destruct (stored_price _ _ _ p st st' resp _ _ _ P H) as (doc & S & Pf & _).
  apply create_drumkit_Ret_inv in H. destruct H as (doc' & Vd & S' & _).
  rewrite S in S'. apply app_inv_head in S'. injection S' as <-.
  apply validate_and_price_Ret_inv in Vd.
  destruct Vd as (fp' & o_f' & o_p' & dt & _ & _ & _ & Ed).
  exists doc. split; [exact S|]. rewrite Pf.
  replace (Drumkit.price_original doc) with (DrumkitCreate.price_original p)
    by (rewrite Ed; reflexivity).
  exact G.
Qed.

Lemma final_price_within_bounds_witness :
  DrumkitCreate.valid Sample.both_offers = true
  /\ pricing Sample.both_offers = Ret (PyFloat.of_int 80, Some (PyFloat.of_int 20), Some 50)
  /\ PyFloat.geb (PyFloat.of_int 80) PyFloat.zero = true
  /\ PyFloat.leb (PyFloat.of_int 80) (DrumkitCreate.price_original Sample.both_offers)
     = true.
Proof.
  assert (V : DrumkitCreate.valid Sample.both_offers = true) by (vm_compute; reflexivity).
  assert (P : pricing Sample.both_offers
              = Ret (PyFloat.of_int 80, Some (PyFloat.of_int 20), Some 50))
    by (vm_compute; reflexivity).
  split; [exact V|]. split; [exact P|].
  exact (proj1 (final_price_within_bounds Sample.fromisoformat Sample.clock
                  Sample.fresh_id Sample.both_offers _ _ _ V P)).
Defined.
